(** * GuardDuty service wrapper: dispatch and validation

    A shallow embedding of [aws_security_mcp/tools/wrappers/guardduty_wrapper.py]
    and the properties of its two entry points,
    [guardduty_security_operations] and [discover_guardduty_operations].

    Conventions of the embedding:
    - a Python [str] is a [string] holding its UTF-8 bytes;
    - a Python [dict] is an association list in insertion order;
    - the six functions imported from [guardduty_tools] and [json.loads] are
      section variables: the wrapper is verified for every behaviour they
      may have;
    - a call of the wrapper yields a [run]: the collaborator invocations it
      made, in order, and whether it returned text or let a fault escape;
    - calls to [logger] are not part of the embedding. *)

From Stdlib Require Import String Ascii List ZArith NArith Bool Lia.
From Stdlib Require Import DecimalString.
Import ListNotations.
Local Open Scope string_scope.
Set Warnings "-register-all".

(** ** Python values *)

Module Py.

(** The values a parameter bag can hold: what a JSON document decodes to.
    A float carries its [repr] (it is only tested for zero and printed). *)
Inductive value : Type :=
| VNone
| VBool (b : bool)
| VInt (z : Z)
| VFloat (repr : string)
| VStr (s : string)
| VList (items : list value)
| VDict (entries : list (string * value)).

Definition dict : Type := list (string * value).

(** [bool(v)] *)
Definition truthy (v : value) : bool :=
  match v with
  | VNone => false
  | VBool b => b
  | VInt z => negb (Z.eqb z 0)
  | VFloat r => negb (String.eqb r "0.0" || String.eqb r "-0.0")
  | VStr s => negb (String.eqb s "")
  | VList items => match items with [] => false | _ => true end
  | VDict entries => match entries with [] => false | _ => true end
  end.

(** [type(v).__name__] *)
Definition type_name (v : value) : string :=
  match v with
  | VNone => "NoneType"
  | VBool _ => "bool"
  | VInt _ => "int"
  | VFloat _ => "float"
  | VStr _ => "str"
  | VList _ => "list"
  | VDict _ => "dict"
  end.

(** *** Dictionaries *)

(** [d.get(k)], [None] of Rocq standing for an absent key *)
Fixpoint dict_get (k : string) (d : dict) : option value :=
  match d with
  | [] => None
  | (k', v) :: rest => if String.eqb k k' then Some v else dict_get k rest
  end.

(** [k in d] *)
Definition dict_has (k : string) (d : dict) : bool :=
  match dict_get k d with Some _ => true | None => false end.

(** [d.get(k, default)] *)
Definition dict_get_default (k : string) (default : value) (d : dict) : value :=
  match dict_get k d with Some v => v | None => default end.

(** [d.get(k)] as a Python value: [None] for an absent key *)
Definition dict_get_none (k : string) (d : dict) : value :=
  dict_get_default k VNone d.

(** [d[k] = v]: an existing key keeps its place, a new one goes last *)
Fixpoint dict_set (k : string) (v : value) (d : dict) : dict :=
  match d with
  | [] => [(k, v)]
  | (k', v') :: rest =>
      if String.eqb k k' then (k', v) :: rest else (k', v') :: dict_set k v rest
  end.

(** [del d[k]] for a key that is present *)
Fixpoint dict_del (k : string) (d : dict) : dict :=
  match d with
  | [] => []
  | (k', v') :: rest =>
      if String.eqb k k' then rest else (k', v') :: dict_del k rest
  end.

(** [d.update(other)] for a mapping [other] *)
Definition dict_update (d other : dict) : dict :=
  fold_left (fun acc kv => dict_set (fst kv) (snd kv) acc) other d.

Definition keys (d : dict) : list string := map fst d.

(** [v[k]] for a value that is a mapping holding [k] *)
Definition field (k : string) (v : value) : option value :=
  match v with
  | VDict d => dict_get k d
  | _ => None
  end.

End Py.
Export Py.

(** ** [json.dumps]

    The encoder with its default settings ([ensure_ascii=True], separators
    [", "] and [": "]) and with [indent=2] (item separator [","]). *)

Module Json.

Definition chr (n : nat) : string := String (ascii_of_nat n) EmptyString.

Definition dquote : string := chr 34.
Definition backslash : string := chr 92.
Definition newline : string := chr 10.

Definition hex_digit (n : N) : string :=
  match n with
  | 0%N => "0" | 1%N => "1" | 2%N => "2" | 3%N => "3"
  | 4%N => "4" | 5%N => "5" | 6%N => "6" | 7%N => "7"
  | 8%N => "8" | 9%N => "9" | 10%N => "a" | 11%N => "b"
  | 12%N => "c" | 13%N => "d" | 14%N => "e" | _ => "f"
  end.

(** [format(n, "04x")] for a UTF-16 code unit *)
Definition hex4 (n : N) : string :=
  hex_digit (N.land (N.shiftr n 12) 15) ++ hex_digit (N.land (N.shiftr n 8) 15)
  ++ hex_digit (N.land (N.shiftr n 4) 15) ++ hex_digit (N.land n 15).

Definition u_escape (n : N) : string := backslash ++ "u" ++ hex4 n.

(** One code point of a string as [py_encode_basestring_ascii] writes it:
    the short escapes, printable ASCII as it is, anything else by its
    UTF-16 code units. *)
Definition escape_code_point (cp : N) : string :=
  if N.eqb cp 34 then backslash ++ dquote
  else if N.eqb cp 92 then backslash ++ backslash
  else if N.eqb cp 10 then backslash ++ "n"
  else if N.eqb cp 13 then backslash ++ "r"
  else if N.eqb cp 9 then backslash ++ "t"
  else if N.eqb cp 12 then backslash ++ "f"
  else if N.eqb cp 8 then backslash ++ "b"
  else if (N.leb 32 cp && N.leb cp 126)%bool then String (ascii_of_N cp) EmptyString
  else if N.ltb cp 65536 then u_escape cp
  else
    let v := (cp - 65536)%N in
    u_escape (55296 + N.shiftr v 10) ++ u_escape (56320 + N.land v 1023).

(** Decoding of the UTF-8 bytes on the fly: [pending] continuation bytes
    are still expected for the code point accumulated in [acc]. *)
Fixpoint escape_utf8 (pending : nat) (acc : N) (s : string) : string :=
  match s with
  | EmptyString => EmptyString
  | String c rest =>
      let b := N_of_ascii c in
      match pending with
      | O =>
          if N.ltb b 128 then escape_code_point b ++ escape_utf8 0 0 rest
          else if N.ltb b 224 then escape_utf8 1 (N.land b 31) rest
          else if N.ltb b 240 then escape_utf8 2 (N.land b 15) rest
          else escape_utf8 3 (N.land b 7) rest
      | S p =>
          let acc' := (acc * 64 + N.land b 63)%N in
          match p with
          | O => escape_code_point acc' ++ escape_utf8 0 0 rest
          | S _ => escape_utf8 p acc' rest
          end
      end
  end.

Definition encode_str (s : string) : string :=
  dquote ++ escape_utf8 0 0 s ++ dquote.

(** [int.__repr__] *)
Definition encode_int (z : Z) : string := NilZero.string_of_int (Z.to_int z).

(** [float.__repr__], with the three names JSON has no literal for *)
Definition encode_float (repr : string) : string :=
  if String.eqb repr "nan" then "NaN"
  else if String.eqb repr "inf" then "Infinity"
  else if String.eqb repr "-inf" then "-Infinity"
  else repr.

Fixpoint join (sep : string) (parts : list string) : string :=
  match parts with
  | [] => ""
  | [p] => p
  | p :: rest => p ++ sep ++ join sep rest
  end.

(** [json.dumps(v)] *)
Fixpoint dumps (v : value) : string :=
  match v with
  | VNone => "null"
  | VBool true => "true"
  | VBool false => "false"
  | VInt z => encode_int z
  | VFloat r => encode_float r
  | VStr s => encode_str s
  | VList items => "[" ++ join ", " (map dumps items) ++ "]"
  | VDict entries =>
      "{" ++ join ", " (map (fun kv => encode_str (fst kv) ++ ": " ++ dumps (snd kv)) entries)
      ++ "}"
  end.

Fixpoint spaces (n : nat) : string :=
  match n with O => "" | S n' => " " ++ spaces n' end.

Definition newline_indent (width level : nat) : string :=
  newline ++ spaces (width * level).

(** [json.dumps(v, indent=width)], [level] being the current nesting depth *)
Fixpoint dumps_indent (width level : nat) (v : value) : string :=
  match v with
  | VList [] => "[]"
  | VList items =>
      "[" ++ newline_indent width (S level)
      ++ join ("," ++ newline_indent width (S level))
              (map (dumps_indent width (S level)) items)
      ++ newline_indent width level ++ "]"
  | VDict [] => "{}"
  | VDict entries =>
      "{" ++ newline_indent width (S level)
      ++ join ("," ++ newline_indent width (S level))
              (map (fun kv => encode_str (fst kv) ++ ": "
                              ++ dumps_indent width (S level) (snd kv)) entries)
      ++ newline_indent width level ++ "}"
  | _ => dumps v
  end.

End Json.


(** ** Faults and outcomes *)

(** A raised exception: [type(e).__name__], [str(e)], and whether its class
    derives from [Exception] (as opposed to [BaseException] alone, like
    [KeyboardInterrupt] or [asyncio.CancelledError]). *)
Record exn : Type := mk_exn {
  exn_type : string;
  exn_str : string;
  exn_is_Exception : bool
}.

Definition TypeError (msg : string) : exn := mk_exn "TypeError" msg true.
Definition ValueError (msg : string) : exn := mk_exn "ValueError" msg true.
Definition UnboundLocalError (msg : string) : exn := mk_exn "UnboundLocalError" msg true.

(** [d[k]] for an absent key; [str] of a [KeyError] is the [repr] of the key *)
Definition KeyError (key : string) : exn := mk_exn "KeyError" ("'" ++ key ++ "'") true.

(** How a call ends: it returns text, or a fault propagates to the caller. *)
Inductive outcome : Type :=
| Returns (text : string)
| Raises (e : exn).

(** What [json.loads] does with a text. *)
Inductive loads_result : Type :=
| Decoded (v : value)
| JSONDecodeError (msg : string)
| LoadsRaises (e : exn).

(** ** [dict.update] with an argument that need not be a mapping *)

Module Update.

Definition is_continuation (c : ascii) : bool :=
  let b := N_of_ascii c in (N.leb 128 b && N.ltb b 192)%bool.

Definition flush (cur : option string) : list string :=
  match cur with Some c => [c] | None => [] end.

(** The characters (code points) of a string, each as a string. *)
Fixpoint chars_from (cur : option string) (s : string) : list string :=
  match s with
  | EmptyString => flush cur
  | String b rest =>
      if is_continuation b
      then chars_from (Some (match cur with Some c => c | None => "" end
                             ++ String b EmptyString)) rest
      else flush cur ++ chars_from (Some (String b EmptyString)) rest
  end.

Definition chars (s : string) : list string := chars_from None s.

(** [list(item)], or nothing when [item] is not iterable *)
Definition as_sequence (item : value) : option (list value) :=
  match item with
  | VList l => Some l
  | VStr s => Some (map VStr (chars s))
  | VDict d => Some (map VStr (keys d))
  | VNone | VBool _ | VInt _ | VFloat _ => None
  end.

Inductive updated : Type :=
| Updated (d : dict)
| UpdateRaises (e : exn)
| NonStringKey.

Definition element_msg (i : nat) : string :=
  "dictionary update sequence element #" ++ NilZero.string_of_uint (Nat.to_uint i).

(** [PyDict_MergeFromSeq2]: every element, numbered from [i], must be a
    sequence of length two, a key and its value. A hashable key that is
    not text would enter the dictionary; such a dictionary is outside
    [dict], and the result is [NonStringKey]. *)
Fixpoint merge_from_seq (i : nat) (d : dict) (items : list value) : updated :=
  match items with
  | [] => Updated d
  | item :: rest =>
      match as_sequence item with
      | None => UpdateRaises (TypeError ("cannot convert " ++ element_msg i ++ " to a sequence"))
      | Some [k; v] =>
          match k with
          | VStr s => merge_from_seq (S i) (dict_set s v d) rest
          | VList _ | VDict _ =>
              UpdateRaises (TypeError ("unhashable type: '" ++ type_name k ++ "'"))
          | VNone | VBool _ | VInt _ | VFloat _ => NonStringKey
          end
      | Some l =>
          UpdateRaises (ValueError (element_msg i ++ " has length "
                          ++ NilZero.string_of_uint (Nat.to_uint (length l))
                          ++ "; 2 is required"))
      end
  end.

(** [d.update(other)] *)
Definition update (d : dict) (other : value) : updated :=
  match other with
  | VDict o => Updated (dict_update d o)
  | VList items => merge_from_seq 0 d items
  | VStr s => merge_from_seq 0 d (map VStr (chars s))
  | VNone | VBool _ | VInt _ | VFloat _ =>
      UpdateRaises (TypeError ("'" ++ type_name other ++ "' object is not iterable"))
  end.

End Update.

(** ** The dispatcher *)

(** An invocation of one of the six functions of [guardduty_tools], with
    the keyword arguments it is given. *)
Inductive call : Type :=
| call_list_detectors (max_results : value) (session_context : option string)
| call_list_findings (detector_id max_results finding_ids severity search_term : value)
    (session_context : option string)
| call_get_finding_details (detector_id finding_id : value)
    (session_context : option string)
| call_list_ip_sets (detector_id max_results : value) (session_context : option string)
| call_list_threat_intel_sets (detector_id max_results : value)
    (session_context : option string)
| call_get_findings_statistics
    (detector_id finding_statistic_types group_by finding_criteria order_by max_results : value)
    (session_context : option string).

(** One execution: the collaborators invoked, in order, and how it ended. *)
Record run : Type := mk_run {
  calls : list call;
  result : outcome
}.

(** The names the [elif] chain compares [operation] with, in its order;
    also the list [available_operations] of the last branch. *)
Definition available_operations : list string :=
  [ "list_detectors"; "list_findings"; "get_finding_details";
    "list_ip_sets"; "list_threat_intel_sets"; "get_findings_statistics" ].

(** [repr] of a list of identifiers, as an f-string formats it *)
Definition repr_names (names : list string) : string :=
  "[" ++ Json.join ", " (map (fun n => "'" ++ n ++ "'") names) ++ "]".

(** The name [json] is local to [guardduty_security_operations], because
    the function body holds an [import json] statement (in the branch that
    decodes a text payload). Until that statement has run the local is
    unbound, and evaluating [json.dumps] raises. *)
Definition json_unbound : exn :=
  UnboundLocalError "cannot access local variable 'json' where it is not associated with a value".

Definition stats_usage : string :=
  "operation='get_findings_statistics', detector_id='detector-id', finding_statistic_types=['COUNT_BY_SEVERITY'] OR group_by='FINDING_TYPE'".

Definition usage_examples : dict :=
  [ ("list_detectors", VStr "operation='list_detectors'");
    ("list_findings",
     VStr "operation='list_findings', detector_id='detector-id', severity='HIGH'");
    ("get_finding_details",
     VStr "operation='get_finding_details', detector_id='detector-id', finding_id='finding-id'");
    ("get_findings_statistics",
     VStr "operation='get_findings_statistics', detector_id='detector-id', finding_statistic_types=['COUNT_BY_SEVERITY']") ].

(** The object of a validation error: a message and a usage hint. *)
Definition usage_error (message usage : string) : value :=
  VDict [("error", VStr message); ("usage", VStr usage)].

Definition unknown_operation_error (operation : string) : value :=
  VDict [ ("error", VStr ("Unknown operation: " ++ operation));
          ("available_operations", VList (map VStr available_operations));
          ("usage_examples", VDict usage_examples) ].

Definition decode_error (msg : string) : value :=
  VDict [("error", VDict [ ("message", VStr ("Invalid JSON in params: " ++ msg));
                           ("type", VStr "JSONDecodeError") ])].

Definition fault_error (operation : string) (e : exn) (params : dict) : value :=
  VDict [("error", VDict [
    ("message", VStr ("Error executing GuardDuty operation '" ++ operation ++ "': "
                      ++ exn_str e));
    ("type", VStr (exn_type e));
    ("operation", VStr operation);
    ("parameters", VDict params) ])].

(** The state in which the [try] statement is entered. *)
Inductive preprocessed : Type :=
| Proceed (params : dict) (json_bound : bool)
| Reply (o : outcome)
| Unmodelled.

Section Wrapper.

(** The functions imported from [aws_security_mcp.tools.guardduty_tools] *)
Variable _list_detectors : value -> option string -> outcome.
Variable _list_findings : value -> value -> value -> value -> value -> option string -> outcome.
Variable _get_finding_details : value -> value -> option string -> outcome.
Variable _get_findings_statistics :
  value -> value -> value -> value -> value -> value -> option string -> outcome.
Variable _list_ip_sets : value -> value -> option string -> outcome.
Variable _list_threat_intel_sets : value -> value -> option string -> outcome.

(** [json.loads] *)
Variable json_loads : string -> loads_result.

Definition invoke (c : call) : outcome :=
  match c with
  | call_list_detectors m sc => _list_detectors m sc
  | call_list_findings d m f s t sc => _list_findings d m f s t sc
  | call_get_finding_details d f sc => _get_finding_details d f sc
  | call_list_ip_sets d m sc => _list_ip_sets d m sc
  | call_list_threat_intel_sets d m sc => _list_threat_intel_sets d m sc
  | call_get_findings_statistics d f g c o m sc =>
      _get_findings_statistics d f g c o m sc
  end.

(** [return await f(...)] *)
Definition await (c : call) : run := mk_run [c] (invoke c).

(** [return json.dumps(v)], [json] being the local name *)
Definition return_dumps (json_bound : bool) (v : value) : run :=
  mk_run [] (if json_bound then Returns (Json.dumps v) else Raises json_unbound).

(** Lines 91-107: the nested [params] entry. *)
Definition preprocess (params : dict) : preprocessed :=
  match dict_get "params" params with
  | Some (VDict nested) => Proceed nested false
  | Some (VStr payload) =>
      match json_loads payload with
      | Decoded parsed_params =>
          match Update.update params parsed_params with
          | Update.Updated params' => Proceed (dict_del "params" params') true
          | Update.UpdateRaises e => Reply (Raises e)
          | Update.NonStringKey => Unmodelled
          end
      | JSONDecodeError msg => Reply (Returns (Json.dumps (decode_error msg)))
      | LoadsRaises e => Reply (Raises e)
      end
  | _ => Proceed params false
  end.

(** Lines 110-249: the body of the [try] statement. *)
Definition try_body (json_bound : bool) (operation : string)
    (session_context : option string) (params : dict) : run :=
  if String.eqb operation "list_detectors" then
    let max_results := dict_get_default "max_results" (VInt 100) params in
    await (call_list_detectors max_results session_context)
  else if String.eqb operation "list_findings" then
    match dict_get "detector_id" params with
    | None =>
        return_dumps json_bound
          (usage_error "detector_id is required for list_findings operation"
                       "operation='list_findings', detector_id='your-detector-id'")
    | Some detector_id =>
        let max_results := dict_get_default "max_results" (VInt 50) params in
        let finding_ids := dict_get_none "finding_ids" params in
        let severity := dict_get_none "severity" params in
        let search_term := dict_get_none "search_term" params in
        await (call_list_findings detector_id max_results finding_ids severity
                 search_term session_context)
    end
  else if String.eqb operation "get_finding_details" then
    let required_params := ["detector_id"; "finding_id"] in
    let missing_params := filter (fun param => negb (dict_has param params)) required_params in
    match missing_params with
    | _ :: _ =>
        return_dumps json_bound
          (usage_error ("Missing required parameters: " ++ repr_names missing_params)
             "operation='get_finding_details', detector_id='detector-id', finding_id='finding-id'")
    | [] =>
        match dict_get "detector_id" params, dict_get "finding_id" params with
        | Some detector_id, Some finding_id =>
            await (call_get_finding_details detector_id finding_id session_context)
        | None, _ => mk_run [] (Raises (KeyError "detector_id"))
        | Some _, None => mk_run [] (Raises (KeyError "finding_id"))
        end
    end
  else if String.eqb operation "list_ip_sets" then
    match dict_get "detector_id" params with
    | None =>
        return_dumps json_bound
          (usage_error "detector_id is required for list_ip_sets operation"
                       "operation='list_ip_sets', detector_id='your-detector-id'")
    | Some detector_id =>
        let max_results := dict_get_default "max_results" (VInt 50) params in
        await (call_list_ip_sets detector_id max_results session_context)
    end
  else if String.eqb operation "list_threat_intel_sets" then
    match dict_get "detector_id" params with
    | None =>
        return_dumps json_bound
          (usage_error "detector_id is required for list_threat_intel_sets operation"
                       "operation='list_threat_intel_sets', detector_id='your-detector-id'")
    | Some detector_id =>
        let max_results := dict_get_default "max_results" (VInt 50) params in
        await (call_list_threat_intel_sets detector_id max_results session_context)
    end
  else if String.eqb operation "get_findings_statistics" then
    match dict_get "detector_id" params with
    | None =>
        return_dumps json_bound
          (usage_error "detector_id is required for get_findings_statistics operation"
                       stats_usage)
    | Some detector_id =>
        let finding_statistic_types := dict_get_none "finding_statistic_types" params in
        let group_by := dict_get_none "group_by" params in
        if negb (truthy finding_statistic_types) && negb (truthy group_by) then
          return_dumps json_bound
            (usage_error "Either finding_statistic_types or group_by parameter is required"
                         stats_usage)
        else if truthy finding_statistic_types && truthy group_by then
          return_dumps json_bound
            (usage_error "Cannot provide both finding_statistic_types and group_by parameters"
                         stats_usage)
        else
          let finding_criteria := dict_get_none "finding_criteria" params in
          let order_by := dict_get_none "order_by" params in
          let max_results := dict_get_none "max_results" params in
          await (call_get_findings_statistics detector_id finding_statistic_types
                   group_by finding_criteria order_by max_results session_context)
    end
  else
    return_dumps json_bound (unknown_operation_error operation).

(** Lines 251-262: [except Exception as e]. A fault that is not an
    [Exception] passes through; so does a fault raised by the handler. *)
Definition except_Exception (json_bound : bool) (operation : string) (params : dict)
    (body : run) : run :=
  match result body with
  | Returns _ => body
  | Raises e =>
      if exn_is_Exception e
      then mk_run (calls body)
             (result (return_dumps json_bound (fault_error operation e params)))
      else body
  end.

(** [guardduty_security_operations(operation, session_context, **params)];
    [None] only where [preprocess] is [Unmodelled]. *)
Definition guardduty_security_operations (operation : string)
    (session_context : option string) (params : dict) : option run :=
  match preprocess params with
  | Proceed params' json_bound =>
      Some (except_Exception json_bound operation params'
              (try_body json_bound operation session_context params'))
  | Reply o => Some (mk_run [] o)
  | Unmodelled => None
  end.

(** [r] is an execution that invoked the collaborator of [c], with the
    arguments of [c], once and nothing else, and handed back the text the
    collaborator returned. *)
Definition forwards (r : option run) (c : call) : Prop :=
  exists r', r = Some r' /\ calls r' = [c] /\
    forall text, invoke c = Returns text -> result r' = Returns text.

End Wrapper.

(** The imported function a call goes to, and its [max_results] argument
    ([get_finding_details] takes none). *)
Definition collaborator_of (c : call) : string :=
  match c with
  | call_list_detectors _ _ => "list_detectors"
  | call_list_findings _ _ _ _ _ _ => "list_findings"
  | call_get_finding_details _ _ _ => "get_finding_details"
  | call_list_ip_sets _ _ _ => "list_ip_sets"
  | call_list_threat_intel_sets _ _ _ => "list_threat_intel_sets"
  | call_get_findings_statistics _ _ _ _ _ _ _ => "get_findings_statistics"
  end.

Definition max_results_of (c : call) : option value :=
  match c with
  | call_list_detectors m _ => Some m
  | call_list_findings _ m _ _ _ _ => Some m
  | call_get_finding_details _ _ _ => None
  | call_list_ip_sets _ m _ => Some m
  | call_list_threat_intel_sets _ m _ => Some m
  | call_get_findings_statistics _ _ _ _ _ m _ => Some m
  end.

Definition session_context_of (c : call) : option string :=
  match c with
  | call_list_detectors _ sc => sc
  | call_list_findings _ _ _ _ _ sc => sc
  | call_get_finding_details _ _ sc => sc
  | call_list_ip_sets _ _ sc => sc
  | call_list_threat_intel_sets _ _ sc => sc
  | call_get_findings_statistics _ _ _ _ _ _ sc => sc
  end.

(** [r] is an execution that invoked a collaborator *)
Definition invokes (r : option run) : Prop :=
  exists r' c, r = Some r' /\ calls r' = [c].

(** [operation] is one of the names the [elif] chain has a branch for *)
Definition known_operation (operation : string) : bool :=
  existsb (String.eqb operation) available_operations.

(** ** The catalog

    The literal [operations_catalog] of [discover_guardduty_operations],
    entry by entry in the order of the source. *)

Module Catalog.

Definition list_detectors : value :=
  VDict [
    ("description", VStr "List all GuardDuty detectors in the AWS account");
    ("parameters",
     VDict [
       ("max_results",
        VDict [
          ("type", VStr "int");
          ("default", VInt 100);
          ("description", VStr "Maximum detectors to return") ]);
       ("session_context",
        VDict [
          ("type", VStr "str");
          ("description", VStr "Optional session key for cross-account access") ]) ]);
    ("examples",
     VList [
       VStr "guardduty_security_operations(operation='list_detectors')";
       VStr "guardduty_security_operations(operation='list_detectors', session_context='123456789012_aws_dev')" ]);
    ("use_cases",
     VList [
       VStr "Check if GuardDuty is enabled";
       VStr "Audit detector configurations";
       VStr "Get detector IDs for other operations";
       VStr "Cross-account detector discovery" ]) ].

Definition list_findings : value :=
  VDict [
    ("description", VStr "Retrieve security findings with advanced filtering capabilities");
    ("parameters",
     VDict [
       ("detector_id",
        VDict [
          ("type", VStr "str");
          ("required", VBool true);
          ("description", VStr "GuardDuty detector ID") ]);
       ("max_results",
        VDict [
          ("type", VStr "int");
          ("default", VInt 50);
          ("description", VStr "Maximum findings to return") ]);
       ("severity",
        VDict [
          ("type", VStr "str");
          ("options", VList [VStr "LOW"; VStr "MEDIUM"; VStr "HIGH"; VStr "ALL"]);
          ("description", VStr "Filter by severity") ]);
       ("search_term",
        VDict [
          ("type", VStr "str");
          ("description", VStr "Text search across finding details") ]);
       ("finding_ids",
        VDict [
          ("type", VStr "list");
          ("description", VStr "Specific finding IDs to retrieve") ]);
       ("session_context",
        VDict [
          ("type", VStr "str");
          ("description", VStr "Optional session key for cross-account access") ]) ]);
    ("examples",
     VList [
       VStr "guardduty_security_operations(operation='list_findings', detector_id='abc123')";
       VStr "guardduty_security_operations(operation='list_findings', detector_id='abc123', severity='HIGH')";
       VStr "guardduty_security_operations(operation='list_findings', detector_id='abc123', search_term='cryptocurrency')";
       VStr "guardduty_security_operations(operation='list_findings', detector_id='abc123', session_context='123456789012_aws_dev')" ]);
    ("use_cases",
     VList [
       VStr "Monitor active security threats";
       VStr "Filter findings by severity level";
       VStr "Search for specific threat patterns";
       VStr "Export findings for reporting";
       VStr "Cross-account threat monitoring" ]) ].

Definition get_finding_details : value :=
  VDict [
    ("description", VStr "Get comprehensive details about a specific security finding");
    ("parameters",
     VDict [
       ("detector_id",
        VDict [
          ("type", VStr "str");
          ("required", VBool true);
          ("description", VStr "GuardDuty detector ID") ]);
       ("finding_id",
        VDict [
          ("type", VStr "str");
          ("required", VBool true);
          ("description", VStr "Specific finding ID to analyze") ]);
       ("session_context",
        VDict [
          ("type", VStr "str");
          ("description", VStr "Optional session key for cross-account access") ]) ]);
    ("examples",
     VList [
       VStr "guardduty_security_operations(operation='get_finding_details', detector_id='abc123', finding_id='def456')";
       VStr "guardduty_security_operations(operation='get_finding_details', detector_id='abc123', finding_id='def456', session_context='123456789012_aws_dev')" ]);
    ("use_cases",
     VList [
       VStr "Investigate specific security incidents";
       VStr "Get remediation recommendations";
       VStr "Analyze attack patterns and IOCs";
       VStr "Cross-account incident investigation" ]) ].

Definition list_ip_sets : value :=
  VDict [
    ("description", VStr "List trusted and threat IP sets configured in GuardDuty");
    ("parameters",
     VDict [
       ("detector_id",
        VDict [
          ("type", VStr "str");
          ("required", VBool true);
          ("description", VStr "GuardDuty detector ID") ]);
       ("max_results",
        VDict [
          ("type", VStr "int");
          ("default", VInt 50);
          ("description", VStr "Maximum IP sets to return") ]);
       ("session_context",
        VDict [
          ("type", VStr "str");
          ("description", VStr "Optional session key for cross-account access") ]) ]);
    ("examples",
     VList [
       VStr "guardduty_security_operations(operation='list_ip_sets', detector_id='abc123')";
       VStr "guardduty_security_operations(operation='list_ip_sets', detector_id='abc123', session_context='123456789012_aws_dev')" ]);
    ("use_cases",
     VList [
       VStr "Review custom threat intelligence";
       VStr "Audit trusted IP configurations";
       VStr "Manage IP-based detection rules";
       VStr "Cross-account IP set management" ]) ].

Definition list_threat_intel_sets : value :=
  VDict [
    ("description", VStr "List threat intelligence feeds and indicators");
    ("parameters",
     VDict [
       ("detector_id",
        VDict [
          ("type", VStr "str");
          ("required", VBool true);
          ("description", VStr "GuardDuty detector ID") ]);
       ("max_results",
        VDict [
          ("type", VStr "int");
          ("default", VInt 50);
          ("description", VStr "Maximum threat intel sets to return") ]);
       ("session_context",
        VDict [
          ("type", VStr "str");
          ("description", VStr "Optional session key for cross-account access") ]) ]);
    ("examples",
     VList [
       VStr "guardduty_security_operations(operation='list_threat_intel_sets', detector_id='abc123')";
       VStr "guardduty_security_operations(operation='list_threat_intel_sets', detector_id='abc123', session_context='123456789012_aws_dev')" ]);
    ("use_cases",
     VList [
       VStr "Review threat intelligence sources";
       VStr "Validate threat feed configurations";
       VStr "Audit custom threat indicators";
       VStr "Cross-account threat intelligence management" ]) ].

Definition get_findings_statistics : value :=
  VDict [
    ("description",
     VStr "Get official AWS-calculated statistics (severity counts, grouping)");
    ("parameters",
     VDict [
       ("detector_id",
        VDict [
          ("type", VStr "str");
          ("required", VBool true);
          ("description", VStr "GuardDuty detector ID") ]);
       ("finding_statistic_types",
        VDict [
          ("type", VStr "list");
          ("description", VStr "Types of statistics to get (e.g., ['COUNT_BY_SEVERITY'])") ]);
       ("group_by",
        VDict [
          ("type", VStr "str");
          ("options",
           VList [
             VStr "ACCOUNT";
             VStr "DATE";
             VStr "FINDING_TYPE";
             VStr "RESOURCE";
             VStr "SEVERITY" ]);
          ("description", VStr "Group statistics by category") ]);
       ("finding_criteria",
        VDict [
          ("type", VStr "dict");
          ("description", VStr "Criteria to filter findings for statistics") ]);
       ("order_by",
        VDict [
          ("type", VStr "str");
          ("options", VList [VStr "ASC"; VStr "DESC"]);
          ("description", VStr "Sort order (only with group_by)") ]);
       ("max_results",
        VDict [
          ("type", VStr "int");
          ("description", VStr "Maximum results (only with group_by, max 100)") ]);
       ("session_context",
        VDict [
          ("type", VStr "str");
          ("description", VStr "Optional session key for cross-account access") ]) ]);
    ("examples",
     VList [
       VStr "guardduty_security_operations(operation='get_findings_statistics', detector_id='abc123', finding_statistic_types=['COUNT_BY_SEVERITY'])";
       VStr "guardduty_security_operations(operation='get_findings_statistics', detector_id='abc123', group_by='FINDING_TYPE', order_by='DESC', max_results=10)";
       VStr "guardduty_security_operations(operation='get_findings_statistics', detector_id='abc123', finding_statistic_types=['COUNT_BY_SEVERITY'], session_context='123456789012_aws_dev')" ]);
    ("usage_notes",
     VList [
       VStr "Must provide either finding_statistic_types OR group_by, but not both";
       VStr "order_by and max_results can only be used with group_by";
       VStr "Use finding_statistic_types=['COUNT_BY_SEVERITY'] for basic severity counts";
       VStr "Use group_by for advanced grouping and sorting capabilities" ]);
    ("use_cases",
     VList [
       VStr "Get official AWS-calculated severity statistics";
       VStr "Analyze findings grouped by type, account, or resource";
       VStr "Generate statistics reports with filtering";
       VStr "Cross-account statistics monitoring" ]) ].

(** The entries under the key ["operations"] *)
Definition operations : dict :=
  [ ("list_detectors", list_detectors);
    ("list_findings", list_findings);
    ("get_finding_details", get_finding_details);
    ("list_ip_sets", list_ip_sets);
    ("list_threat_intel_sets", list_threat_intel_sets);
    ("get_findings_statistics", get_findings_statistics) ].

Definition cross_account_support : value :=
  VDict [
    ("enabled", VBool true);
    ("parameter", VStr "session_context");
    ("format", VStr "123456789012_aws_dev");
    ("description", VStr "Access GuardDuty resources across different AWS accounts") ].

Definition security_insights : value :=
  VDict [
    ("best_practices",
     VList [
       VStr "Always start with list_detectors to get detector IDs";
       VStr "Use severity filtering for high-priority threat triage";
       VStr "Regular monitoring of HIGH severity findings";
       VStr "Review threat intelligence configurations periodically";
       VStr "Implement cross-account monitoring for centralized security" ]);
    ("common_workflows",
     VList [
       VStr "1. List detectors → 2. List high-severity findings → 3. Analyze specific findings";
       VStr "1. List detectors → 2. Review IP sets → 3. Validate threat intelligence";
       VStr "Cross-account: 1. List detectors with session_context → 2. Monitor findings across accounts" ]) ].

Definition operations_catalog : value :=
  VDict [ ("service", VStr "AWS GuardDuty");
          ("description", VStr "Threat detection and continuous security monitoring service");
          ("wrapper_tool", VStr "guardduty_security_operations");
          ("cross_account_support", cross_account_support);
          ("operations", VDict operations);
          ("security_insights", security_insights) ].

End Catalog.

(** [discover_guardduty_operations()]: the catalog, serialized with
    [json.dumps(operations_catalog, indent=2)]. Here [json] is the module
    imported at the top of the file: this function has no local of that
    name. No collaborator is involved. *)
Definition discover_guardduty_operations : run :=
  mk_run [] (Returns (Json.dumps_indent 2 0 Catalog.operations_catalog)).

(** *** Reading the catalog *)

(** The parameter schemas the catalog gives for an operation (none for a
    name without an entry), the parameters among them that are flagged
    [required], and the default a schema states. *)
Definition documented_parameters (operation : string) : dict :=
  match dict_get operation Catalog.operations with
  | Some entry =>
      match field "parameters" entry with
      | Some (VDict schemas) => schemas
      | _ => []
      end
  | None => []
  end.

Definition flagged_required (schema : value) : bool :=
  match field "required" schema with
  | Some (VBool true) => true
  | _ => false
  end.

Definition required_parameters (operation : string) : list string :=
  keys (filter (fun kv => flagged_required (snd kv)) (documented_parameters operation)).

Definition documented_default (operation name : string) : option value :=
  match dict_get name (documented_parameters operation) with
  | Some schema => field "default" schema
  | None => None
  end.

(** ** A decoder for a fragment of JSON

    The wrapper is verified for an arbitrary [json_loads]. To run it on
    concrete texts, this module follows [json.decoder] and [json.scanner]
    on the documents that hold no number with a fraction or an exponent,
    no backslash or control character inside a string, no comma directly
    before a closing bracket, no integer of more than 4300 digits and no
    nesting deeper than [max_depth]; on any other document it answers
    [Outside], not a guess. Positions count characters, as in Python. *)

Module Decoder.

Inductive scan (A : Type) : Type :=
| Got (a : A) (rest : string) (pos : nat)
| Fail (msg : string) (pos : nat)
| Stop (pos : nat)
| Outside.
Arguments Got {A} a rest pos.
Arguments Fail {A} msg pos.
Arguments Stop {A} pos.
Arguments Outside {A}.

Definition max_depth : nat := 64.

Definition is_ws (c : ascii) : bool :=
  let b := nat_of_ascii c in
  (Nat.eqb b 32 || Nat.eqb b 9 || Nat.eqb b 10 || Nat.eqb b 13)%bool.

Definition is_digit (c : ascii) : bool :=
  let b := nat_of_ascii c in (Nat.leb 48 b && Nat.leb b 57)%bool.

Definition is_char (n : nat) (c : ascii) : bool := Nat.eqb (nat_of_ascii c) n.

(** the step of a position over one byte: a continuation byte belongs to
    the character already counted *)
Definition advance (c : ascii) (pos : nat) : nat :=
  if Update.is_continuation c then pos else S pos.

(** [WHITESPACE.match(s, pos).end()] *)
Fixpoint skip_ws (s : string) (pos : nat) : string * nat :=
  match s with
  | String c rest => if is_ws c then skip_ws rest (S pos) else (s, pos)
  | EmptyString => (s, pos)
  end.

(** [s[pos:pos+len(word)] == word], with what follows the word *)
Fixpoint after_word (word s : string) : option string :=
  match word, s with
  | EmptyString, _ => Some s
  | String w word', String c rest => if Ascii.eqb w c then after_word word' rest else None
  | String _ _, EmptyString => None
  end.

(** [scanstring], entered after the opening quote that stands at [begin] *)
Fixpoint scan_string (begin : nat) (s : string) (pos : nat) : scan string :=
  match s with
  | EmptyString => Fail "Unterminated string starting at" begin
  | String c rest =>
      if is_char 34 c then Got EmptyString rest (S pos)
      else if (is_char 92 c || Nat.ltb (nat_of_ascii c) 32)%bool then Outside
      else
        match scan_string begin rest (advance c pos) with
        | Got content rest' pos' => Got (String c content) rest' pos'
        | other => other
        end
  end.

(** the digits at the head of [s] *)
Fixpoint take_digits (s : string) : list nat * string :=
  match s with
  | String c rest =>
      if is_digit c
      then let (ds, rest') := take_digits rest in (nat_of_ascii c - 48 :: ds, rest')
      else ([], s)
  | EmptyString => ([], s)
  end.

Definition digits_value (ds : list nat) : Z :=
  fold_left (fun acc d => (acc * 10 + Z.of_nat d)%Z) ds 0%Z.

Definition starts_fraction (s : string) : bool :=
  match s with
  | String c _ => (is_char 46 c || is_char 101 c || is_char 69 c)%bool
  | EmptyString => false
  end.

(** [NUMBER_RE]: an optional minus sign, then a zero or a run of digits
    that starts with no zero; a fraction or an exponent is [Outside] *)
Definition scan_number (s : string) (pos : nat) : scan value :=
  let (negative, body) :=
    match s with
    | String c rest => if is_char 45 c then (true, rest) else (false, s)
    | EmptyString => (false, s)
    end in
  let (ds, rest) :=
    match body with
    | String c body' => if is_char 48 c then ([0], body') else take_digits body
    | EmptyString => ([], body)
    end in
  match ds with
  | [] => Stop pos
  | _ =>
      if (starts_fraction rest || Nat.ltb 4300 (length ds))%bool then Outside
      else
        let z := digits_value ds in
        Got (VInt (if negative then Z.opp z else z)) rest
            (pos + length ds + (if negative then 1 else 0))
  end.

Definition closes (close : nat) (s : string) : bool :=
  match s with String c _ => is_char close c | EmptyString => false end.

(** [scan_once], [JSONArray] and [JSONObject]. [fuel] bounds the number of
    calls (twice the length of the text is enough), [depth] the nesting. *)
Fixpoint scan_once (fuel depth : nat) (s : string) (pos : nat) : scan value :=
  match fuel with
  | O => Outside
  | S fuel' =>
      match s with
      | EmptyString => Stop pos
      | String c rest =>
          if is_char 34 c then
            match scan_string pos rest (S pos) with
            | Got content rest' pos' => Got (VStr content) rest' pos'
            | Fail msg p => Fail msg p
            | Stop p => Stop p
            | Outside => Outside
            end
          else if is_char 123 c then
            if Nat.ltb max_depth depth then Outside
            else
              let (s1, p1) := skip_ws rest (S pos) in
              match s1 with
              | String c1 rest1 =>
                  if is_char 125 c1 then Got (VDict []) rest1 (S p1)
                  else if is_char 34 c1 then
                    match scan_members fuel' (S depth) [] p1 rest1 (S p1) with
                    | Got d rest' pos' => Got (VDict d) rest' pos'
                    | Fail msg p => Fail msg p
                    | Stop p => Stop p
                    | Outside => Outside
                    end
                  else Fail "Expecting property name enclosed in double quotes" p1
              | EmptyString => Fail "Expecting property name enclosed in double quotes" p1
              end
          else if is_char 91 c then
            if Nat.ltb max_depth depth then Outside
            else
              let (s1, p1) := skip_ws rest (S pos) in
              if closes 93 s1 then
                match s1 with
                | String _ rest1 => Got (VList []) rest1 (S p1)
                | EmptyString => Outside
                end
              else
                match scan_items fuel' (S depth) s1 p1 with
                | Got items rest' pos' => Got (VList items) rest' pos'
                | Fail msg p => Fail msg p
                | Stop p => Stop p
                | Outside => Outside
                end
          else
            match after_word "null" s, after_word "true" s, after_word "false" s with
            | Some r, _, _ => Got VNone r (pos + 4)
            | _, Some r, _ => Got (VBool true) r (pos + 4)
            | _, _, Some r => Got (VBool false) r (pos + 5)
            | None, None, None =>
                match scan_number s pos with
                | Stop _ =>
                    match after_word "NaN" s, after_word "Infinity" s,
                          after_word "-Infinity" s with
                    | Some r, _, _ => Got (VFloat "nan") r (pos + 3)
                    | _, Some r, _ => Got (VFloat "inf") r (pos + 8)
                    | _, _, Some r => Got (VFloat "-inf") r (pos + 9)
                    | None, None, None => Stop pos
                    end
                | other => other
                end
            end
      end
  end

(** the loop of [JSONArray], at the start of an element *)
with scan_items (fuel depth : nat) (s : string) (pos : nat) : scan (list value) :=
  match fuel with
  | O => Outside
  | S fuel' =>
      match scan_once fuel' depth s pos with
      | Stop p => Fail "Expecting value" p
      | Fail msg p => Fail msg p
      | Outside => Outside
      | Got v s1 p1 =>
          let (s2, p2) := skip_ws s1 p1 in
          match s2 with
          | String c rest =>
              if is_char 93 c then Got [v] rest (S p2)
              else if is_char 44 c then
                let (s3, p3) := skip_ws rest (S p2) in
                if closes 93 s3 then Outside
                else
                  match scan_items fuel' depth s3 p3 with
                  | Got vs rest' pos' => Got (v :: vs) rest' pos'
                  | other => other
                  end
              else Fail "Expecting ',' delimiter" p2
          | EmptyString => Fail "Expecting ',' delimiter" p2
          end
      end
  end

(** the loop of [JSONObject], after the opening quote of a key that stands
    at [begin]; [acc] holds the pairs read so far *)
with scan_members (fuel depth : nat) (acc : dict) (begin : nat) (s : string) (pos : nat)
    : scan dict :=
  match fuel with
  | O => Outside
  | S fuel' =>
      match scan_string begin s pos with
      | Fail msg p => Fail msg p
      | Stop p => Stop p
      | Outside => Outside
      | Got key s1 p1 =>
          let (s2, p2) := skip_ws s1 p1 in
          match s2 with
          | String c rest =>
              if is_char 58 c then
                let (s3, p3) := skip_ws rest (S p2) in
                match scan_once fuel' depth s3 p3 with
                | Stop p => Fail "Expecting value" p
                | Fail msg p => Fail msg p
                | Outside => Outside
                | Got v s4 p4 =>
                    let acc' := dict_set key v acc in
                    let (s5, p5) := skip_ws s4 p4 in
                    match s5 with
                    | String c5 rest5 =>
                        if is_char 125 c5 then Got acc' rest5 (S p5)
                        else if is_char 44 c5 then
                          let (s6, p6) := skip_ws rest5 (S p5) in
                          match s6 with
                          | String c6 rest6 =>
                              if is_char 34 c6
                              then scan_members fuel' depth acc' p6 rest6 (S p6)
                              else if is_char 125 c6 then Outside
                              else Fail "Expecting property name enclosed in double quotes" p6
                          | EmptyString =>
                              Fail "Expecting property name enclosed in double quotes" p6
                          end
                        else Fail "Expecting ',' delimiter" p5
                    | EmptyString => Fail "Expecting ',' delimiter" p5
                    end
                end
              else Fail "Expecting ':' delimiter" p2
          | EmptyString => Fail "Expecting ':' delimiter" p2
          end
      end
  end.

(** line and column (both from 1) of the character at [pos] *)
Fixpoint line_column (s : string) (pos line col : nat) : nat * nat :=
  match pos, s with
  | O, _ => (line, col)
  | _, EmptyString => (line, col)
  | S pos', String c rest =>
      if Update.is_continuation c then line_column rest pos line col
      else if is_char 10 c then line_column rest pos' (S line) 1
      else line_column rest pos' line (S col)
  end.

Definition show_nat (n : nat) : string := NilZero.string_of_uint (Nat.to_uint n).

(** [str] of [JSONDecodeError(msg, doc, pos)] *)
Definition errmsg (msg doc : string) (pos : nat) : string :=
  let (line, col) := line_column doc pos 1 1 in
  msg ++ ": line " ++ show_nat line ++ " column " ++ show_nat col
      ++ " (char " ++ show_nat pos ++ ")".

Definition utf8_bom : string :=
  String (ascii_of_nat 239) (String (ascii_of_nat 187) (String (ascii_of_nat 191) EmptyString)).

(** [json.loads(doc)] on the fragment; [None] outside it *)
Definition loads (doc : string) : option loads_result :=
  match after_word utf8_bom doc with
  | Some _ =>
      Some (JSONDecodeError (errmsg "Unexpected UTF-8 BOM (decode using utf-8-sig)" doc 0))
  | None =>
      let (s0, p0) := skip_ws doc 0 in
      match scan_once (2 * String.length doc + 2) 0 s0 p0 with
      | Stop p => Some (JSONDecodeError (errmsg "Expecting value" doc p))
      | Fail msg p => Some (JSONDecodeError (errmsg msg doc p))
      | Outside => None
      | Got v rest p =>
          match skip_ws rest p with
          | (EmptyString, _) => Some (Decoded v)
          | (String _ _, p') => Some (JSONDecodeError (errmsg "Extra data" doc p'))
          end
      end
  end.

(** A total [json_loads] to run the wrapper with: the decoder, and a
    fault of a class of its own for a text outside the fragment. *)
Definition json_loads (doc : string) : loads_result :=
  match loads doc with
  | Some r => r
  | None => LoadsRaises (mk_exn "OutsideFragment" doc true)
  end.

End Decoder.

(** ** Collaborators to run the wrapper with *)

Module Demo.

(** a service that answers every request with the arguments it was given *)
Definition echo (name : string) (args : dict) (session_context : option string) : outcome :=
  Returns (Json.dumps (VDict [
    ("called", VStr name);
    ("arguments", VDict args);
    ("session_context", match session_context with Some sc => VStr sc | None => VNone end) ])).

Definition _list_detectors (max_results : value) := echo "list_detectors"
  [("max_results", max_results)].
Definition _list_findings (detector_id max_results finding_ids severity search_term : value) :=
  echo "list_findings"
    [("detector_id", detector_id); ("max_results", max_results);
     ("finding_ids", finding_ids); ("severity", severity); ("search_term", search_term)].
Definition _get_finding_details (detector_id finding_id : value) :=
  echo "get_finding_details" [("detector_id", detector_id); ("finding_id", finding_id)].
Definition _get_findings_statistics
    (detector_id finding_statistic_types group_by finding_criteria order_by max_results : value) :=
  echo "get_findings_statistics"
    [("detector_id", detector_id); ("finding_statistic_types", finding_statistic_types);
     ("group_by", group_by); ("finding_criteria", finding_criteria);
     ("order_by", order_by); ("max_results", max_results)].
Definition _list_ip_sets (detector_id max_results : value) :=
  echo "list_ip_sets" [("detector_id", detector_id); ("max_results", max_results)].
Definition _list_threat_intel_sets (detector_id max_results : value) :=
  echo "list_threat_intel_sets" [("detector_id", detector_id); ("max_results", max_results)].

(** a bag on which every known operation passes its checks *)
Definition complete_bag : dict :=
  [ ("detector_id", VStr "abc123"); ("finding_id", VStr "def456");
    ("group_by", VStr "FINDING_TYPE") ].

(** the wrapper over the echoing service *)
Definition wrapper : string -> option string -> dict -> option run :=
  guardduty_security_operations _list_detectors _list_findings _get_finding_details
    _get_findings_statistics _list_ip_sets _list_threat_intel_sets Decoder.json_loads.

Definition forwarded : option run -> call -> Prop :=
  forwards _list_detectors _list_findings _get_finding_details
    _get_findings_statistics _list_ip_sets _list_threat_intel_sets.

(** the text of the JSON object with the one member [detector_id: d1],
    and a bag that carries it under ["params"] *)
Definition d1_text : string := Json.dumps (VDict [("detector_id", VStr "d1")]).
Definition d1_in_text : dict := [("params", VStr d1_text)].
Definition d1_nested : dict := [("params", VDict [("detector_id", VStr "d1")])].
Definition d1_direct : dict := [("detector_id", VStr "d1")].

(** a bag that asks for both kinds of statistics *)
Definition both_statistics : dict :=
  [ ("detector_id", VStr "d1");
    ("finding_statistic_types", VList [VStr "COUNT_BY_SEVERITY"]);
    ("group_by", VStr "SEVERITY") ].

(** a detector listing that fails: access is denied *)
Definition access_denied : exn :=
  mk_exn "ClientError"
    "An error occurred (AccessDeniedException) when calling the ListDetectors operation"
    true.

(** a detector listing that is cancelled while it waits; the class
    [asyncio.CancelledError] derives from [BaseException] only *)
Definition cancelled : exn := mk_exn "CancelledError" "" false.

Definition wrapper_failing (e : exn) : string -> option string -> dict -> option run :=
  guardduty_security_operations (fun _ _ => Raises e) _list_findings _get_finding_details
    _get_findings_statistics _list_ip_sets _list_threat_intel_sets Decoder.json_loads.

End Demo.

(** * Properties *)

(** ** Dictionaries *)

Lemma dict_has_get (k : string) (d : dict) :
  dict_has k d = true <-> exists v, dict_get k d = Some v.
Proof.
  unfold dict_has. destruct (dict_get k d) as [v|]; split.
  - intros _. now exists v.
  - reflexivity.
  - discriminate.
  - intros [v H]. discriminate.
Qed.

Lemma dict_get_none_absent (k : string) (d : dict) :
  dict_get k d = None -> dict_get_none k d = VNone.
Proof. unfold dict_get_none, dict_get_default. now intros ->. Qed.

Lemma dict_get_default_present (k : string) (default v : value) (d : dict) :
  dict_get k d = Some v -> dict_get_default k default d = v.
Proof. unfold dict_get_default. now intros ->. Qed.

Lemma dict_get_default_absent (k : string) (default : value) (d : dict) :
  dict_get k d = None -> dict_get_default k default d = default.
Proof. unfold dict_get_default. now intros ->. Qed.

Lemma dict_get_set (k k' : string) (v : value) (d : dict) :
  dict_get k (dict_set k' v d) = if String.eqb k k' then Some v else dict_get k d.
Proof.
  induction d as [|[k0 v0] rest IH]; cbn [dict_set dict_get].
  - reflexivity.
  - destruct (String.eqb k' k0) eqn:E'; cbn [dict_get].
    + apply String.eqb_eq in E'. subst k0.
      now destruct (String.eqb k k').
    + rewrite IH. destruct (String.eqb k k0) eqn:E; [|reflexivity].
      apply String.eqb_eq in E. subst k0.
      now rewrite String.eqb_sym, E'.
Qed.

Lemma dict_get_absent (k : string) (d : dict) :
  ~ In k (keys d) -> dict_get k d = None.
Proof.
  induction d as [|[k0 v0] rest IH]; cbn [keys map fst dict_get In]; [reflexivity|].
  intros H. destruct (String.eqb k k0) eqn:E.
  - apply String.eqb_eq in E. exfalso. apply H. now left.
  - apply IH. intros Hin. apply H. now right.
Qed.

(** After [d.update(other)] a key has the value [other] gives it, and
    else the value it had. *)
Lemma dict_get_update (k : string) (other d : dict) :
  NoDup (keys other) ->
  dict_get k (dict_update d other)
  = match dict_get k other with Some v => Some v | None => dict_get k d end.
Proof.
  unfold dict_update. revert d.
  induction other as [|[k1 v1] rest IH]; intros d Hnd; cbn [fold_left dict_get fst snd].
  - reflexivity.
  - cbn [keys map fst] in Hnd. inversion Hnd as [|? ? Hnotin Hrest]; subst.
    rewrite (IH _ Hrest), dict_get_set.
    destruct (String.eqb k k1) eqn:E; [|reflexivity].
    apply String.eqb_eq in E. subst k1.
    now rewrite (dict_get_absent _ _ Hnotin).
Qed.

Lemma dict_get_del_other (k k' : string) (d : dict) :
  k <> k' -> dict_get k (dict_del k' d) = dict_get k d.
Proof.
  intros Hne. induction d as [|[k0 v0] rest IH]; cbn [dict_del dict_get]; [reflexivity|].
  destruct (String.eqb k' k0) eqn:E'.
  - apply String.eqb_eq in E'. subst k0.
    apply String.eqb_neq in Hne. now rewrite Hne.
  - cbn [dict_get]. now rewrite IH.
Qed.

Lemma dict_get_none_fresh (k : string) (d : dict) :
  dict_get k d = None -> ~ In k (keys d).
Proof.
  induction d as [|[k0 v0] rest IH]; cbn [keys map fst dict_get In]; [tauto|].
  destruct (String.eqb k k0) eqn:E; [discriminate|].
  intros H [Heq | Hin].
  - subst k0. now rewrite String.eqb_refl in E.
  - now apply IH.
Qed.

(** A new key goes last. *)
Lemma dict_set_fresh (k : string) (v : value) (d : dict) :
  ~ In k (keys d) -> dict_set k v d = (d ++ [(k, v)])%list.
Proof.
  induction d as [|[k0 v0] rest IH]; cbn [keys map fst dict_set In app]; [reflexivity|].
  intros H. destruct (String.eqb k k0) eqn:E.
  - apply String.eqb_eq in E. exfalso. apply H. now left.
  - f_equal. apply IH. intros Hin. apply H. now right.
Qed.

(** Updating with a mapping of new keys appends its entries in order. *)
Lemma dict_update_fresh (other d : dict) :
  NoDup (keys other) ->
  (forall k, In k (keys other) -> ~ In k (keys d)) ->
  dict_update d other = (d ++ other)%list.
Proof.
  unfold dict_update. revert d.
  induction other as [|[k1 v1] rest IH]; intros d Hnd Hfresh; cbn [fold_left fst snd].
  - now rewrite app_nil_r.
  - cbn [keys map fst] in Hnd. inversion Hnd as [|? ? Hnotin Hrest]; subst.
    rewrite dict_set_fresh by (apply Hfresh; now left).
    rewrite IH; [now rewrite <- app_assoc | exact Hrest |].
    intros k Hin. unfold keys. rewrite map_app, in_app_iff. cbn [map fst In].
    intros [Hd | [<- | []]].
    + apply (Hfresh k); [now right | exact Hd].
    + now apply Hnotin.
Qed.

(** ** The dispatcher, for any collaborators and any decoder *)

(** Selects the branch of the [elif] chain for a literal operation name. *)
Ltac enter_branch := unfold try_body; simpl String.eqb; cbv iota.

(** Follows the [elif] chain for an arbitrary operation name: one goal for
    each of the six names and one for any other name. *)
Ltac split_operation op :=
  unfold try_body;
  repeat match goal with
  | |- context [String.eqb op ?name] =>
      let E := fresh "E" in
      destruct (String.eqb op name) eqn:E; cbv iota;
      [apply String.eqb_eq in E; subst op | ]
  end.

Section Properties.

Variable _list_detectors : value -> option string -> outcome.
Variable _list_findings : value -> value -> value -> value -> value -> option string -> outcome.
Variable _get_finding_details : value -> value -> option string -> outcome.
Variable _get_findings_statistics :
  value -> value -> value -> value -> value -> value -> option string -> outcome.
Variable _list_ip_sets : value -> value -> option string -> outcome.
Variable _list_threat_intel_sets : value -> value -> option string -> outcome.
Variable json_loads : string -> loads_result.

Local Abbreviation invoke' :=
  (invoke _list_detectors _list_findings _get_finding_details _get_findings_statistics
     _list_ip_sets _list_threat_intel_sets).
Local Abbreviation await' :=
  (await _list_detectors _list_findings _get_finding_details _get_findings_statistics
     _list_ip_sets _list_threat_intel_sets).
Local Abbreviation try_body' :=
  (try_body _list_detectors _list_findings _get_finding_details _get_findings_statistics
     _list_ip_sets _list_threat_intel_sets).
Local Abbreviation dispatch :=
  (guardduty_security_operations _list_detectors _list_findings _get_finding_details
     _get_findings_statistics _list_ip_sets _list_threat_intel_sets json_loads).
Local Abbreviation forwards' :=
  (forwards _list_detectors _list_findings _get_finding_details _get_findings_statistics
     _list_ip_sets _list_threat_intel_sets).

(** A body that awaits a collaborator: the handler leaves the call and a
    returned text as they are. *)
Lemma except_await (b : bool) (operation : string) (p : dict) (c : call) :
  calls (except_Exception b operation p (await' c)) = [c] /\
  forall text, invoke' c = Returns text ->
    result (except_Exception b operation p (await' c)) = Returns text.
Proof.
  unfold except_Exception, await; cbn [result calls].
  destruct (invoke' c) as [t|e] eqn:E.
  - cbn [calls result]. split; [reflexivity|]. intros text H. now rewrite <- H.
  - destruct (exn_is_Exception e); cbn [calls result]; split;
      try reflexivity; intros text H; discriminate H.
Qed.

Lemma dispatch_proceed (operation : string) (sc : option string) (params p : dict) (b : bool) :
  preprocess json_loads params = Proceed p b ->
  dispatch operation sc params
  = Some (except_Exception b operation p (try_body' b operation sc p)).
Proof. unfold guardduty_security_operations. now intros ->. Qed.

Lemma forwards_await (operation : string) (sc : option string) (params p : dict) (b : bool)
    (c : call) :
  preprocess json_loads params = Proceed p b ->
  try_body' b operation sc p = await' c ->
  forwards' (dispatch operation sc params) c.
Proof.
  intros Hpre Hbody. unfold forwards.
  rewrite (dispatch_proceed _ _ _ _ _ Hpre), Hbody.
  eexists; split; [reflexivity|]. apply except_await.
Qed.

(** The nested mapping under ["params"] becomes the parameter bag; a bag
    without an entry ["params"] is kept. In both cases the local [json]
    stays unbound. *)
Lemma preprocess_mapping (params nested : dict) :
  dict_get "params" params = Some (VDict nested) ->
  preprocess json_loads params = Proceed nested false.
Proof. unfold preprocess. now intros ->. Qed.

Lemma preprocess_plain (params : dict) :
  dict_get "params" params = None ->
  preprocess json_loads params = Proceed params false.
Proof. unfold preprocess. now intros ->. Qed.

(** Only the decoding branch binds [json]. *)
Lemma preprocess_bound (params p : dict) :
  preprocess json_loads params = Proceed p true ->
  exists payload parsed,
    dict_get "params" params = Some (VStr payload) /\
    json_loads payload = Decoded parsed.
Proof.
  unfold preprocess.
  destruct (dict_get "params" params) as [[| | | |payload| |nested]|];
    try discriminate.
  destruct (json_loads payload) as [parsed|msg|e] eqn:E; try discriminate.
  intros _. exists payload, parsed. now split.
Qed.

(** X6. A text under ["params"] that decodes to a mapping is merged into
    the bag and the entry ["params"] removed: a key of the parsed mapping has
    its parsed value, any other key the value the bag gave it. This branch
    binds [json]. *)
Lemma text_payload_merges (params parsed : dict) (payload : string) :
  dict_get "params" params = Some (VStr payload) ->
  json_loads payload = Decoded (VDict parsed) ->
  NoDup (keys parsed) ->
  preprocess json_loads params
  = Proceed (dict_del "params" (dict_update params parsed)) true
  /\ forall k, k <> "params" ->
       dict_get k (dict_del "params" (dict_update params parsed))
       = match dict_get k parsed with Some v => Some v | None => dict_get k params end.
Proof.
  intros Hget Hloads Hnd. split.
  - unfold preprocess. now rewrite Hget, Hloads.
  - intros k Hk. now rewrite (dict_get_del_other _ _ _ Hk), (dict_get_update _ _ _ Hnd).
Qed.

(** C1. For each of the six operation names, a call whose normalized
    parameters hold what the operation requires invokes the matching
    collaborator, once and no other, with the values of the normalized
    parameters and the given session context, and returns the text the
    collaborator returns. For [get_findings_statistics] the requirement is
    [detector_id] and exactly one of [finding_statistic_types] and
    [group_by] given a value that is not empty. *)
Theorem known_operation_forwards (sc : option string) (params p : dict) (b : bool) :
  preprocess json_loads params = Proceed p b ->
  forwards' (dispatch "list_detectors" sc params)
    (call_list_detectors (dict_get_default "max_results" (VInt 100) p) sc)
  /\ (forall detector_id,
        dict_get "detector_id" p = Some detector_id ->
        forwards' (dispatch "list_findings" sc params)
          (call_list_findings detector_id
             (dict_get_default "max_results" (VInt 50) p)
             (dict_get_none "finding_ids" p) (dict_get_none "severity" p)
             (dict_get_none "search_term" p) sc))
  /\ (forall detector_id finding_id,
        dict_get "detector_id" p = Some detector_id ->
        dict_get "finding_id" p = Some finding_id ->
        forwards' (dispatch "get_finding_details" sc params)
          (call_get_finding_details detector_id finding_id sc))
  /\ (forall detector_id,
        dict_get "detector_id" p = Some detector_id ->
        forwards' (dispatch "list_ip_sets" sc params)
          (call_list_ip_sets detector_id (dict_get_default "max_results" (VInt 50) p) sc))
  /\ (forall detector_id,
        dict_get "detector_id" p = Some detector_id ->
        forwards' (dispatch "list_threat_intel_sets" sc params)
          (call_list_threat_intel_sets detector_id
             (dict_get_default "max_results" (VInt 50) p) sc))
  /\ (forall detector_id,
        dict_get "detector_id" p = Some detector_id ->
        xorb (truthy (dict_get_none "finding_statistic_types" p))
             (truthy (dict_get_none "group_by" p)) = true ->
        forwards' (dispatch "get_findings_statistics" sc params)
          (call_get_findings_statistics detector_id
             (dict_get_none "finding_statistic_types" p) (dict_get_none "group_by" p)
             (dict_get_none "finding_criteria" p) (dict_get_none "order_by" p)
             (dict_get_none "max_results" p) sc)).
Proof.
  intros Hpre. repeat split.
  - apply (forwards_await _ _ _ _ _ _ Hpre). reflexivity.
  - intros d Hd. apply (forwards_await _ _ _ _ _ _ Hpre).
    enter_branch. now rewrite Hd.
  - intros d f Hd Hf. apply (forwards_await _ _ _ _ _ _ Hpre).
    enter_branch; unfold dict_has; cbn [filter].
    rewrite Hd, Hf. reflexivity.
  - intros d Hd. apply (forwards_await _ _ _ _ _ _ Hpre).
    enter_branch. now rewrite Hd.
  - intros d Hd. apply (forwards_await _ _ _ _ _ _ Hpre).
    enter_branch. now rewrite Hd.
  - intros d Hd Hx. apply (forwards_await _ _ _ _ _ _ Hpre).
    enter_branch. rewrite Hd.
    destruct (truthy (dict_get_none "finding_statistic_types" p)),
             (truthy (dict_get_none "group_by" p)); try discriminate Hx; reflexivity.
Qed.


(** C8. With [max_results] absent from the normalized parameters, the
    collaborator of [list_detectors] is invoked with [max_results = 100]
    and those of [list_findings], [list_ip_sets] and
    [list_threat_intel_sets] (given a [detector_id]) with
    [max_results = 50]; a [max_results] that is present is forwarded as it
    is. *)
Theorem max_results_default_or_forwarded (sc : option string) (params p : dict) (b : bool) :
  preprocess json_loads params = Proceed p b ->
  (exists r c,
      dispatch "list_detectors" sc params = Some r /\ calls r = [c] /\
      collaborator_of c = "list_detectors" /\
      max_results_of c
      = Some (match dict_get "max_results" p with Some m => m | None => VInt 100 end))
  /\ forall operation,
      In operation ["list_findings"; "list_ip_sets"; "list_threat_intel_sets"] ->
      dict_has "detector_id" p = true ->
      exists r c,
        dispatch operation sc params = Some r /\ calls r = [c] /\
        collaborator_of c = operation /\
        max_results_of c
        = Some (match dict_get "max_results" p with Some m => m | None => VInt 50 end).
Proof.
  intros Hpre. split.
  - destruct (forwards_await "list_detectors" sc params p b
                (call_list_detectors (dict_get_default "max_results" (VInt 100) p) sc)
                Hpre eq_refl) as (r & Hr & Hc & _).
    exists r. eexists. repeat split; [exact Hr | exact Hc | reflexivity | reflexivity].
  - intros operation Hin Hhas.
    apply dict_has_get in Hhas. destruct Hhas as [d Hd].
    destruct Hin as [<- | [<- | [<- | []]]].
    + destruct (forwards_await "list_findings" sc params p b
                  (call_list_findings d (dict_get_default "max_results" (VInt 50) p)
                     (dict_get_none "finding_ids" p) (dict_get_none "severity" p)
                     (dict_get_none "search_term" p) sc) Hpre)
        as (r & Hr & Hc & _); [enter_branch; now rewrite Hd|].
      exists r. eexists. repeat split; [exact Hr | exact Hc | reflexivity | reflexivity].
    + destruct (forwards_await "list_ip_sets" sc params p b
                  (call_list_ip_sets d (dict_get_default "max_results" (VInt 50) p) sc)
                  Hpre)
        as (r & Hr & Hc & _); [enter_branch; now rewrite Hd|].
      exists r. eexists. repeat split; [exact Hr | exact Hc | reflexivity | reflexivity].
    + destruct (forwards_await "list_threat_intel_sets" sc params p b
                  (call_list_threat_intel_sets d
                     (dict_get_default "max_results" (VInt 50) p) sc) Hpre)
        as (r & Hr & Hc & _); [enter_branch; now rewrite Hd|].
      exists r. eexists. repeat split; [exact Hr | exact Hc | reflexivity | reflexivity].
Qed.

(** C7. A text under ["params"] that the decoder rejects: whatever the
    operation, the call returns the error object of kind
    [JSONDecodeError] whose message carries the decoder's message, and no
    collaborator is invoked. *)
Theorem undecodable_payload_reported (operation : string) (sc : option string)
    (params : dict) (payload msg : string) :
  dict_get "params" params = Some (VStr payload) ->
  json_loads payload = JSONDecodeError msg ->
  dispatch operation sc params
  = Some (mk_run [] (Returns (Json.dumps
      (VDict [("error", VDict [ ("message", VStr ("Invalid JSON in params: " ++ msg));
                                ("type", VStr "JSONDecodeError") ])])))).
Proof.
  intros Hget Hloads.
  unfold guardduty_security_operations, preprocess.
  rewrite Hget, Hloads. reflexivity.
Qed.

(** C4, as the code has it. Only the entry under the key ["params"] is
    examined. When its value is a mapping, every entry of that nested
    mapping is among the parameters validation and the collaborator call
    work on; a bag that is only this envelope is the nested mapping passed
    directly (when the mapping has no entry ["params"] of its own). A
    mapping under any other key is not flattened: in a bag without an
    entry ["params"] it stays the value of its key, and the parameters are
    those of the bag, key by key. *)
Theorem params_mapping_flattened_one_level (operation : string) (sc : option string) :
  (forall params nested,
      dict_get "params" params = Some (VDict nested) ->
      exists p b,
        preprocess json_loads params = Proceed p b
        /\ (forall k v, dict_get k nested = Some v -> dict_get k p = Some v)
        /\ dispatch operation sc params
           = Some (except_Exception b operation p (try_body' b operation sc p)))
  /\ (forall nested,
        dict_get "params" nested = None ->
        dispatch operation sc [("params", VDict nested)] = dispatch operation sc nested)
  /\ (forall params k m,
        dict_get "params" params = None ->
        dict_get k params = Some (VDict m) ->
        exists p b,
          preprocess json_loads params = Proceed p b
          /\ dict_get k p = Some (VDict m)
          /\ (forall k', dict_get k' p = dict_get k' params)
          /\ dispatch operation sc params
             = Some (except_Exception b operation p (try_body' b operation sc p))).
Proof.
  split; [|split].
  - intros params nested Hget.
    pose proof (preprocess_mapping _ _ Hget) as Hpre.
    exists nested, false. split; [exact Hpre|]. split.
    + intros k v Hk. exact Hk.
    + exact (dispatch_proceed _ _ _ _ _ Hpre).
  - intros nested Hnone.
    rewrite (dispatch_proceed operation sc [("params", VDict nested)] nested false
               (preprocess_mapping [("params", VDict nested)] nested eq_refl)).
    now rewrite (dispatch_proceed _ _ _ _ _ (preprocess_plain _ Hnone)).
  - intros params k m Hnone Hk.
    pose proof (preprocess_plain _ Hnone) as Hpre.
    exists params, false. split; [exact Hpre|]. split; [exact Hk|]. split.
    + intros k'. reflexivity.
    + exact (dispatch_proceed _ _ _ _ _ Hpre).
Qed.


(** *** Replies built with the local [json] *)

(** A reply of the [try] body is returned when [json] is bound. When it is
    unbound, [json.dumps] raises [UnboundLocalError] in the body, the
    handler catches it, and the handler's own [json.dumps] raises it again:
    that one leaves the function. *)
Lemma reply_through_handler (b : bool) (operation : string) (p : dict) (v : value) :
  except_Exception b operation p (return_dumps b v)
  = mk_run [] (if b then Returns (Json.dumps v) else Raises json_unbound).
Proof. destruct b; reflexivity. Qed.

Lemma dispatch_reply (operation : string) (sc : option string) (params p : dict)
    (b : bool) (v : value) :
  preprocess json_loads params = Proceed p b ->
  try_body' b operation sc p = return_dumps b v ->
  dispatch operation sc params
  = Some (mk_run [] (if b then Returns (Json.dumps v) else Raises json_unbound)).
Proof.
  intros Hpre Hbody.
  rewrite (dispatch_proceed _ _ _ _ _ Hpre), Hbody. now rewrite reply_through_handler.
Qed.

(** A collaborator that raises an [Exception]: the handler reports it when
    [json] is bound, and raises [UnboundLocalError] itself when not. *)
Lemma fault_through_handler (b : bool) (operation : string) (p : dict) (c : call) (e : exn) :
  invoke' c = Raises e ->
  exn_is_Exception e = true ->
  except_Exception b operation p (await' c)
  = mk_run [c] (if b then Returns (Json.dumps (fault_error operation e p))
                else Raises json_unbound).
Proof.
  intros Hc He. unfold except_Exception, await; cbn [result calls].
  rewrite Hc, He. destruct b; reflexivity.
Qed.

(** A fault that is no [Exception] is not for this handler. *)
Lemma base_exception_passes (b : bool) (operation : string) (p : dict) (c : call) (e : exn) :
  invoke' c = Raises e ->
  exn_is_Exception e = false ->
  except_Exception b operation p (await' c) = mk_run [c] (Raises e).
Proof.
  intros Hc He. unfold except_Exception, await; cbn [result calls].
  now rewrite Hc, He.
Qed.

(** *** The branches *)

Lemma unknown_operation_branch (b : bool) (operation : string) (sc : option string)
    (p : dict) :
  known_operation operation = false ->
  try_body' b operation sc p = return_dumps b (unknown_operation_error operation).
Proof.
  unfold known_operation, available_operations; cbn [existsb].
  intros H. repeat (apply orb_false_elim in H; destruct H as [? H]).
  unfold try_body.
  repeat match goal with E : String.eqb operation _ = false |- _ => rewrite E; clear E end.
  reflexivity.
Qed.

(** The operations that require [detector_id] reply with a usage error
    when it is missing; [get_finding_details] lists the names it misses. *)
Lemma missing_detector_id_branch (b : bool) (operation : string) (sc : option string)
    (p : dict) :
  In operation ["list_findings"; "list_ip_sets"; "list_threat_intel_sets";
                "get_findings_statistics"] ->
  dict_get "detector_id" p = None ->
  exists usage,
    try_body' b operation sc p
    = return_dumps b
        (usage_error ("detector_id is required for " ++ operation ++ " operation") usage).
Proof.
  intros Hin Hd.
  destruct Hin as [<- | [<- | [<- | [<- | []]]]];
    enter_branch; rewrite Hd; eexists; reflexivity.
Qed.

Lemma missing_finding_details_branch (b : bool) (sc : option string) (p : dict) :
  dict_has "detector_id" p && dict_has "finding_id" p = false ->
  try_body' b "get_finding_details" sc p
  = return_dumps b
      (usage_error
         ("Missing required parameters: "
          ++ repr_names (filter (fun param => negb (dict_has param p))
                           ["detector_id"; "finding_id"]))
         "operation='get_finding_details', detector_id='detector-id', finding_id='finding-id'").
Proof.
  intros H. enter_branch. cbn [filter].
  destruct (dict_has "detector_id" p), (dict_has "finding_id" p);
    try discriminate H; reflexivity.
Qed.

Lemma statistics_neither_branch (b : bool) (sc : option string) (p : dict) (d : value) :
  dict_get "detector_id" p = Some d ->
  truthy (dict_get_none "finding_statistic_types" p) = false ->
  truthy (dict_get_none "group_by" p) = false ->
  try_body' b "get_findings_statistics" sc p
  = return_dumps b
      (usage_error "Either finding_statistic_types or group_by parameter is required"
                   stats_usage).
Proof. intros Hd Hf Hg. enter_branch. now rewrite Hd, Hf, Hg. Qed.

Lemma statistics_both_branch (b : bool) (sc : option string) (p : dict) (d : value) :
  dict_get "detector_id" p = Some d ->
  truthy (dict_get_none "finding_statistic_types" p) = true ->
  truthy (dict_get_none "group_by" p) = true ->
  try_body' b "get_findings_statistics" sc p
  = return_dumps b
      (usage_error "Cannot provide both finding_statistic_types and group_by parameters"
                   stats_usage).
Proof. intros Hd Hf Hg. enter_branch. now rewrite Hd, Hf, Hg. Qed.


(** *** The names with a branch *)

(** The names of [available_operations] are the operations with a branch
    of their own: on some parameters a collaborator is awaited. For any
    other name no parameters lead to a collaborator. *)
Lemma known_operation_has_branch (operation : string) :
  known_operation operation = true <->
  exists sc p c, try_body' true operation sc p = await' c.
Proof.
  split.
  - unfold known_operation, available_operations; cbn [existsb].
    intros H.
    repeat (apply orb_true_elim in H; destruct H as [H | H]);
      try discriminate H;
      apply String.eqb_eq in H; subst operation;
      exists None, Demo.complete_bag; eexists; reflexivity.
  - intros (sc & p & c & H).
    destruct (known_operation operation) eqn:K; [reflexivity|].
    rewrite (unknown_operation_branch _ _ _ _ K) in H. discriminate H.
Qed.

(** C9. [discover_guardduty_operations] has no parameter and returns
    text: the serialized catalog. The catalog has six operation entries;
    their names are [available_operations], the names for which the
    dispatcher has a branch. *)
Theorem catalog_lists_dispatcher_operations :
  exists text ops,
    discover_guardduty_operations = mk_run [] (Returns text)
    /\ text = Json.dumps_indent 2 0 Catalog.operations_catalog
    /\ field "operations" Catalog.operations_catalog = Some (VDict ops)
    /\ length ops = 6
    /\ keys ops = available_operations
    /\ forall operation,
         In operation (keys ops) <->
         exists sc p c, try_body' true operation sc p = await' c.
Proof.
  exists (Json.dumps_indent 2 0 Catalog.operations_catalog), Catalog.operations.
  repeat split; try reflexivity.
  - intros Hin. apply known_operation_has_branch.
    unfold known_operation. apply existsb_exists.
    exists operation. split; [exact Hin | apply String.eqb_refl].
  - intros H. apply known_operation_has_branch in H.
    unfold known_operation in H. apply existsb_exists in H.
    destruct H as (name & Hin & Heq). apply String.eqb_eq in Heq. now subst name.
Qed.


(** *** The shape of an execution *)

(** Whatever the operation and the parameters, the [try] body either
    replies through [json.dumps] or awaits one collaborator: the one the
    operation names, with the session context of the call. Which of the
    two does not depend on the binding of [json]. *)
Lemma try_body_shape (operation : string) (sc : option string) (p : dict) :
  (exists v, forall b, try_body' b operation sc p = return_dumps b v)
  \/ (exists c, (forall b, try_body' b operation sc p = await' c)
                /\ collaborator_of c = operation /\ session_context_of c = sc).
Proof.
  split_operation operation.
  - right. eexists. repeat split; reflexivity.
  - destruct (dict_get "detector_id" p); [right | left]; eexists;
      repeat split; reflexivity.
  - unfold dict_has; cbn [filter].
    destruct (dict_get "detector_id" p), (dict_get "finding_id" p); cbn [negb];
      [right | left | left | left]; eexists; repeat split; reflexivity.
  - destruct (dict_get "detector_id" p); [right | left]; eexists;
      repeat split; reflexivity.
  - destruct (dict_get "detector_id" p); [right | left]; eexists;
      repeat split; reflexivity.
  - destruct (dict_get "detector_id" p); [|left; eexists; reflexivity].
    destruct (truthy (dict_get_none "finding_statistic_types" p)),
             (truthy (dict_get_none "group_by" p)); cbn [negb andb];
      [left | right | right | left]; eexists; repeat split; reflexivity.
  - left. eexists. reflexivity.
Qed.

Lemma except_calls (b : bool) (operation : string) (p : dict) (body : run) :
  calls (except_Exception b operation p body) = calls body.
Proof.
  unfold except_Exception. destruct (result body) as [t|e]; [reflexivity|].
  destruct (exn_is_Exception e); reflexivity.
Qed.

(** What the handler makes of an awaited collaborator. *)
Lemma except_await_result (b : bool) (operation : string) (p : dict) (c : call) :
  result (except_Exception b operation p (await' c))
  = match invoke' c with
    | Returns text => Returns text
    | Raises e =>
        if exn_is_Exception e
        then (if b then Returns (Json.dumps (fault_error operation e p))
              else Raises json_unbound)
        else Raises e
    end.
Proof.
  unfold except_Exception, await; cbn [result calls].
  destruct (invoke' c) as [t|e]; [reflexivity|].
  destruct (exn_is_Exception e), b; reflexivity.
Qed.

(** A call that enters the [try] statement is a reply without any
    collaborator, or one awaited collaborator behind the handler. *)
Lemma dispatch_cases (operation : string) (sc : option string) (params p : dict) (b : bool) :
  preprocess json_loads params = Proceed p b ->
  (exists v,
      dispatch operation sc params
      = Some (mk_run [] (if b then Returns (Json.dumps v) else Raises json_unbound)))
  \/ (exists c,
        collaborator_of c = operation /\ session_context_of c = sc /\
        (forall b', try_body' b' operation sc p = await' c) /\
        dispatch operation sc params
        = Some (except_Exception b operation p (await' c))).
Proof.
  intros Hpre.
  destruct (try_body_shape operation sc p) as [[v Hv] | (c & Hc & Hop & Hsc)].
  - left. exists v. exact (dispatch_reply _ _ _ _ _ _ Hpre (Hv b)).
  - right. exists c. repeat split; try assumption.
    now rewrite (dispatch_proceed _ _ _ _ _ Hpre), Hc.
Qed.

(** Before the [try] statement the function returns or raises without
    any collaborator, or it enters the statement. *)
Lemma dispatch_preprocessed (operation : string) (sc : option string) (params : dict)
    (r : run) :
  dispatch operation sc params = Some r ->
  (exists p b, preprocess json_loads params = Proceed p b)
  \/ (exists o, preprocess json_loads params = Reply o /\ r = mk_run [] o).
Proof.
  unfold guardduty_security_operations.
  destruct (preprocess json_loads params) as [p b | o |]; intros H.
  - left. now exists p, b.
  - right. exists o. split; [reflexivity|]. now injection H.
  - discriminate H.
Qed.


Lemma collaborator_known (c : call) : known_operation (collaborator_of c) = true.
Proof. destruct c; reflexivity. Qed.

Lemma preprocess_text_mapping (params parsed : dict) (payload : string) :
  dict_get "params" params = Some (VStr payload) ->
  json_loads payload = Decoded (VDict parsed) ->
  preprocess json_loads params
  = Proceed (dict_del "params" (dict_update params parsed)) true.
Proof. intros Hget Hloads. unfold preprocess. now rewrite Hget, Hloads. Qed.

Lemma preprocess_without_text (params : dict) :
  (forall payload, dict_get "params" params <> Some (VStr payload)) ->
  exists p, preprocess json_loads params = Proceed p false.
Proof.
  intros Hno. unfold preprocess.
  destruct (dict_get "params" params) as [[| | | |payload| |nested]|];
    try (eexists; reflexivity).
  now destruct (Hno payload).
Qed.

(** *** What every call does *)

(** X1. A call invokes at most one collaborator, and only the one its
    operation names, with the session context it was given; for a name
    that is not one of the six it invokes none. *)
Theorem at_most_one_matching_call (operation : string) (sc : option string)
    (params : dict) (r : run) :
  dispatch operation sc params = Some r ->
  calls r = []
  \/ exists c, calls r = [c] /\ collaborator_of c = operation
               /\ session_context_of c = sc /\ known_operation operation = true.
Proof.
  intros Hr.
  destruct (dispatch_preprocessed _ _ _ _ Hr) as [(p & b & Hpre) | (o & _ & ->)];
    [|now left].
  destruct (dispatch_cases operation sc params p b Hpre)
    as [[v Hv] | (c & Hop & Hsc & _ & Hc)].
  - left. rewrite Hv in Hr. now injection Hr as <-.
  - right. exists c. rewrite Hc in Hr. injection Hr as <-.
    rewrite except_calls. repeat split; try assumption.
    rewrite <- Hop. apply collaborator_known.
Qed.

(** X2. Whenever a collaborator was invoked and returned text, that text
    is what the call returns, for any operation and any parameters. *)
Theorem collaborator_text_returned_unaltered (operation : string) (sc : option string)
    (params : dict) (r : run) (c : call) (text : string) :
  dispatch operation sc params = Some r ->
  calls r = [c] ->
  invoke' c = Returns text ->
  result r = Returns text.
Proof.
  intros Hr Hcalls Hc.
  destruct (dispatch_preprocessed _ _ _ _ Hr) as [(p & b & Hpre) | (o & _ & ->)];
    [|discriminate Hcalls].
  destruct (dispatch_cases operation sc params p b Hpre)
    as [[v Hv] | (c' & _ & _ & _ & Hc')].
  - rewrite Hv in Hr. injection Hr as <-. discriminate Hcalls.
  - rewrite Hc' in Hr. injection Hr as <-.
    rewrite except_calls in Hcalls. injection Hcalls as ->.
    now rewrite except_await_result, Hc.
Qed.

(** X3. A call whose bag carries no text under ["params"] never returns an
    error object: it ends with the text of the collaborator it invoked,
    with a fault of that collaborator that is no [Exception], or with
    [UnboundLocalError] (in place of every validation reply and of every
    report of an [Exception]). *)
Theorem no_error_object_without_text_payload (operation : string) (sc : option string)
    (params : dict) :
  (forall payload, dict_get "params" params <> Some (VStr payload)) ->
  exists r,
    dispatch operation sc params = Some r /\
    ((calls r = [] /\ result r = Raises json_unbound)
     \/ exists c, calls r = [c] /\
          ((exists text, invoke' c = Returns text /\ result r = Returns text)
           \/ (exists e, invoke' c = Raises e /\
                 result r = Raises (if exn_is_Exception e then json_unbound else e)))).
Proof.
  intros Hno. destruct (preprocess_without_text params Hno) as [p Hpre].
  destruct (dispatch_cases operation sc params p false Hpre)
    as [[v Hv] | (c & _ & _ & _ & Hc)].
  - eexists. split; [exact Hv|]. left. now split.
  - eexists. split; [exact Hc|]. right. exists c.
    split; [apply except_calls|].
    rewrite except_await_result.
    destruct (invoke' c) as [t|e]; [left; now exists t|].
    right. exists e. split; [reflexivity|]. now destruct (exn_is_Exception e).
Qed.

(** X4. After a text payload that decodes to a mapping, a call returns
    text unless the collaborator it invoked raises a fault that is no
    [Exception]; that fault is the only one that leaves the function. *)
Theorem text_payload_call_returns_text (operation : string) (sc : option string)
    (params parsed : dict) (payload : string) :
  dict_get "params" params = Some (VStr payload) ->
  json_loads payload = Decoded (VDict parsed) ->
  exists r,
    dispatch operation sc params = Some r /\
    ((exists text, result r = Returns text)
     \/ exists c e, calls r = [c] /\ invoke' c = Raises e /\
          exn_is_Exception e = false /\ result r = Raises e).
Proof.
  intros Hget Hloads.
  pose proof (preprocess_text_mapping _ _ _ Hget Hloads) as Hpre.
  destruct (dispatch_cases operation sc params _ true Hpre)
    as [[v Hv] | (c & _ & _ & _ & Hc)].
  - eexists. split; [exact Hv|]. left. eexists. reflexivity.
  - eexists. split; [exact Hc|].
    rewrite except_await_result, except_calls.
    destruct (invoke' c) as [t|e] eqn:E; [left; now exists t|].
    destruct (exn_is_Exception e) eqn:Ee; [left; eexists; reflexivity|].
    right. exists c, e. repeat split; try assumption; reflexivity.
Qed.

(** X5. After a text payload that decodes to a mapping, an [Exception]
    raised by the invoked collaborator is returned as the error object
    with its message, the name of its class, the operation and the merged
    parameters. *)
Theorem fault_reported_after_text_payload (operation : string) (sc : option string)
    (params parsed : dict) (payload : string) (r : run) (c : call) (e : exn) :
  dict_get "params" params = Some (VStr payload) ->
  json_loads payload = Decoded (VDict parsed) ->
  dispatch operation sc params = Some r ->
  calls r = [c] ->
  invoke' c = Raises e ->
  exn_is_Exception e = true ->
  result r
  = Returns (Json.dumps (VDict [("error", VDict [
      ("message", VStr ("Error executing GuardDuty operation '" ++ operation ++ "': "
                        ++ exn_str e));
      ("type", VStr (exn_type e));
      ("operation", VStr operation);
      ("parameters", VDict (dict_del "params" (dict_update params parsed))) ])])).
Proof.
  intros Hget Hloads Hr Hcalls Hc He.
  pose proof (preprocess_text_mapping _ _ _ Hget Hloads) as Hpre.
  destruct (dispatch_cases operation sc params _ true Hpre)
    as [[v Hv] | (c' & _ & _ & _ & Hc')].
  - rewrite Hv in Hr. injection Hr as <-. discriminate Hcalls.
  - rewrite Hc' in Hr. injection Hr as <-.
    rewrite except_calls in Hcalls. injection Hcalls as ->.
    now rewrite except_await_result, Hc, He.
Qed.


(** *** The text payload *)

(** X7. Passing a bag as JSON text under ["params"] is passing the bag:
    the normalized parameters are the bag itself, the same collaborator is
    invoked with the same arguments, and a text the direct call returns is
    returned by the call with the text as well. (The two differ only where
    the direct call raises [UnboundLocalError].) *)
Theorem text_envelope_equivalent (operation : string) (sc : option string)
    (bag : dict) (text : string) :
  json_loads text = Decoded (VDict bag) ->
  NoDup (keys bag) ->
  dict_get "params" bag = None ->
  preprocess json_loads [("params", VStr text)] = Proceed bag true
  /\ exists r r',
       dispatch operation sc [("params", VStr text)] = Some r
       /\ dispatch operation sc bag = Some r'
       /\ calls r = calls r'
       /\ forall t, result r' = Returns t -> result r = Returns t.
Proof.
  intros Hloads Hnd Hnone.
  assert (Hpre : preprocess json_loads [("params", VStr text)] = Proceed bag true).
  { rewrite (preprocess_text_mapping [("params", VStr text)] bag text eq_refl Hloads).
    rewrite dict_update_fresh; [reflexivity | exact Hnd |].
    intros k Hin [<- | []]. now apply (dict_get_none_fresh _ _ Hnone). }
  split; [exact Hpre|].
  pose proof (preprocess_plain bag Hnone) as Hpre'.
  rewrite (dispatch_proceed operation sc _ _ _ Hpre),
          (dispatch_proceed operation sc _ _ _ Hpre').
  do 2 eexists. split; [reflexivity|]. split; [reflexivity|].
  destruct (try_body_shape operation sc bag) as [[v Hv] | (c & Hc & _ & _)].
  - rewrite !Hv, !reply_through_handler. split; [reflexivity|]. discriminate.
  - rewrite !Hc, !except_calls, !except_await_result. split; [reflexivity|].
    destruct (invoke' c) as [t'|e]; [trivial|].
    destruct (exn_is_Exception e); discriminate.
Qed.

(** X8. A text payload that is valid JSON but a scalar ([null], a
    boolean, a number): [params.update] raises [TypeError] before the
    [try] statement, so the fault leaves the function and no collaborator
    is invoked. One that is an empty array or an empty string merges
    nothing: the call proceeds with the bag less its entry ["params"]. *)
Theorem non_mapping_payload (operation : string) (sc : option string)
    (params : dict) (payload : string) (v : value) :
  dict_get "params" params = Some (VStr payload) ->
  json_loads payload = Decoded v ->
  (v = VNone \/ (exists b, v = VBool b) \/ (exists z, v = VInt z)
     \/ (exists r, v = VFloat r) ->
   dispatch operation sc params
   = Some (mk_run [] (Raises (TypeError ("'" ++ type_name v ++ "' object is not iterable")))))
  /\ (v = VList [] \/ v = VStr "" ->
      preprocess json_loads params = Proceed (dict_del "params" params) true).
Proof.
  intros Hget Hloads. unfold guardduty_security_operations, preprocess.
  rewrite Hget, Hloads. split.
  - intros [-> | [[b ->] | [[z ->] | [r ->]]]]; reflexivity.
  - intros [-> | ->]; reflexivity.
Qed.


(** *** The dispatcher and the catalog *)

(** X9. A parameter the catalog flags as required for an operation is
    enforced: when the normalized parameters lack it, no collaborator is
    invoked. *)
Theorem catalog_required_enforced (operation name : string) (sc : option string)
    (params p : dict) (b : bool) :
  preprocess json_loads params = Proceed p b ->
  In name (required_parameters operation) ->
  dict_get name p = None ->
  exists r, dispatch operation sc params = Some r /\ calls r = [].
Proof.
  intros Hpre Hin Hnone.
  rewrite (dispatch_proceed _ _ _ _ _ Hpre).
  eexists. split; [reflexivity|]. rewrite except_calls.
  revert Hin.
  unfold required_parameters, documented_parameters, Catalog.operations;
    cbn [dict_get].
  split_operation operation; intros Hin; vm_compute in Hin;
    repeat (destruct Hin as [<- | Hin]); try contradiction;
    unfold dict_has; cbn [filter]; rewrite ?Hnone; try reflexivity.
  destruct (dict_get "detector_id" p); reflexivity.
Qed.

(** X10. The default the catalog documents for [max_results] is the value
    the dispatcher forwards when the normalized parameters have no
    [max_results]. *)
Theorem catalog_defaults_forwarded (operation : string) (sc : option string)
    (params p : dict) (b : bool) (default : value) (r : run) (c : call) :
  preprocess json_loads params = Proceed p b ->
  documented_default operation "max_results" = Some default ->
  dict_get "max_results" p = None ->
  dispatch operation sc params = Some r ->
  calls r = [c] ->
  max_results_of c = Some default.
Proof.
  intros Hpre Hdef Hnone Hr Hcalls.
  destruct (dispatch_cases operation sc params p b Hpre)
    as [[v Hv] | (c' & _ & _ & Hbody & Hc')].
  - rewrite Hv in Hr. injection Hr as <-. discriminate Hcalls.
  - rewrite Hc' in Hr. injection Hr as <-.
    rewrite except_calls in Hcalls. injection Hcalls as ->.
    specialize (Hbody true). revert Hdef Hbody.
    unfold documented_default, documented_parameters, Catalog.operations;
      cbn [dict_get].
    split_operation operation; intros Hdef Hbody; vm_compute in Hdef;
      try discriminate Hdef; injection Hdef as <-;
      try destruct (dict_get "detector_id" p); try discriminate Hbody;
      injection Hbody as <- _; cbn [max_results_of];
      now rewrite (dict_get_default_absent _ _ _ Hnone).
Qed.

(** X11. Validation and the collaborator call of an operation read only
    the parameters the catalog documents for it: two bags that agree on
    those parameters are treated alike. *)
Theorem body_reads_documented_parameters (operation : string) (sc : option string)
    (b : bool) (p p' : dict) :
  (forall k, In k (keys (documented_parameters operation)) ->
             dict_get k p = dict_get k p') ->
  try_body' b operation sc p = try_body' b operation sc p'.
Proof.
  unfold documented_parameters, Catalog.operations; cbn [dict_get].
  split_operation operation; intros H;
    unfold dict_has, dict_get_none, dict_get_default; cbn [filter].
  - now rewrite (H "max_results") by (vm_compute; auto 10).
  - rewrite (H "detector_id"), (H "max_results"), (H "finding_ids"), (H "severity"),
      (H "search_term") by (vm_compute; auto 10).
    reflexivity.
  - rewrite (H "detector_id"), (H "finding_id") by (vm_compute; auto 10).
    reflexivity.
  - rewrite (H "detector_id"), (H "max_results") by (vm_compute; auto 10).
    reflexivity.
  - rewrite (H "detector_id"), (H "max_results") by (vm_compute; auto 10).
    reflexivity.
  - rewrite (H "detector_id"), (H "finding_statistic_types"), (H "group_by"),
      (H "finding_criteria"), (H "order_by"), (H "max_results")
      by (vm_compute; auto 10).
    reflexivity.
  - reflexivity.
Qed.

(** X12. When a collaborator is invoked, exactly: always for
    [list_detectors]; for [list_findings], [list_ip_sets] and
    [list_threat_intel_sets] when the normalized parameters have
    [detector_id]; for [get_finding_details] when they have it and
    [finding_id]; for [get_findings_statistics] when they have it and
    exactly one of [finding_statistic_types] and [group_by] is given a
    value that is not empty; never for another name. *)
Theorem invoked_iff_requirements (sc : option string) (params p : dict) (b : bool) :
  preprocess json_loads params = Proceed p b ->
  invokes (dispatch "list_detectors" sc params)
  /\ (forall operation,
        In operation ["list_findings"; "list_ip_sets"; "list_threat_intel_sets"] ->
        (invokes (dispatch operation sc params) <-> dict_has "detector_id" p = true))
  /\ (invokes (dispatch "get_finding_details" sc params)
      <-> dict_has "detector_id" p && dict_has "finding_id" p = true)
  /\ (invokes (dispatch "get_findings_statistics" sc params)
      <-> dict_has "detector_id" p
          && xorb (truthy (dict_get_none "finding_statistic_types" p))
                  (truthy (dict_get_none "group_by" p)) = true)
  /\ (forall operation,
        known_operation operation = false -> ~ invokes (dispatch operation sc params)).
Proof.
  intros Hpre.
  assert (Hinv : forall operation,
             invokes (dispatch operation sc params)
             <-> exists c, calls (try_body' b operation sc p) = [c]).
  { intros operation. unfold invokes.
    rewrite (dispatch_proceed _ _ _ _ _ Hpre). split.
    - intros (r & c & Hr & Hc). injection Hr as <-.
      rewrite except_calls in Hc. now exists c.
    - intros (c & Hc). do 2 eexists. split; [reflexivity|].
      rewrite except_calls. exact Hc. }
  repeat split.
  - apply Hinv. eexists. reflexivity.
  - rewrite Hinv. intros [c Hc]. revert Hc. unfold dict_has.
    destruct H as [<- | [<- | [<- | []]]]; enter_branch;
      destruct (dict_get "detector_id" p); (reflexivity || discriminate).
  - intros Hhas. apply Hinv. revert Hhas. unfold dict_has.
    destruct H as [<- | [<- | [<- | []]]]; enter_branch;
      destruct (dict_get "detector_id" p); try discriminate;
      intros _; eexists; reflexivity.
  - rewrite Hinv. intros [c Hc]. revert Hc. enter_branch.
    unfold dict_has; cbn [filter].
    destruct (dict_get "detector_id" p), (dict_get "finding_id" p);
      (reflexivity || discriminate).
  - intros Hhas. apply Hinv. revert Hhas. enter_branch.
    unfold dict_has; cbn [filter].
    destruct (dict_get "detector_id" p), (dict_get "finding_id" p);
      try discriminate; intros _; eexists; reflexivity.
  - rewrite Hinv. intros [c Hc]. revert Hc. enter_branch. unfold dict_has.
    destruct (dict_get "detector_id" p); [|discriminate].
    destruct (truthy (dict_get_none "finding_statistic_types" p)),
             (truthy (dict_get_none "group_by" p)); (reflexivity || discriminate).
  - intros Hhas. apply Hinv. revert Hhas. enter_branch. unfold dict_has.
    destruct (dict_get "detector_id" p); [|discriminate].
    destruct (truthy (dict_get_none "finding_statistic_types" p)),
             (truthy (dict_get_none "group_by" p)); try discriminate;
      intros _; eexists; reflexivity.
  - intros operation Hunknown. rewrite Hinv.
    rewrite (unknown_operation_branch _ _ _ _ Hunknown). intros [c Hc].
    discriminate Hc.
Qed.


End Properties.


(** * Concrete runs

    The wrapper over the echoing service of [Demo] and the decoder of
    [Decoder]. *)

Local Abbreviation demo_args T :=
  (T Demo._list_detectors Demo._list_findings Demo._get_finding_details
     Demo._get_findings_statistics Demo._list_ip_sets Demo._list_threat_intel_sets).

(** ** The calls that reach a collaborator *)

Lemma known_operation_forwards_witness :
  let sc := Some "123456789012_aws_dev" in
  preprocess Decoder.json_loads Demo.complete_bag = Proceed Demo.complete_bag false
  /\ Demo.forwarded (Demo.wrapper "list_detectors" sc Demo.complete_bag)
       (call_list_detectors (VInt 100) sc)
  /\ Demo.forwarded (Demo.wrapper "list_findings" sc Demo.complete_bag)
       (call_list_findings (VStr "abc123") (VInt 50) VNone VNone VNone sc)
  /\ Demo.forwarded (Demo.wrapper "get_finding_details" sc Demo.complete_bag)
       (call_get_finding_details (VStr "abc123") (VStr "def456") sc)
  /\ Demo.forwarded (Demo.wrapper "list_ip_sets" sc Demo.complete_bag)
       (call_list_ip_sets (VStr "abc123") (VInt 50) sc)
  /\ Demo.forwarded (Demo.wrapper "list_threat_intel_sets" sc Demo.complete_bag)
       (call_list_threat_intel_sets (VStr "abc123") (VInt 50) sc)
  /\ Demo.forwarded (Demo.wrapper "get_findings_statistics" sc Demo.complete_bag)
       (call_get_findings_statistics (VStr "abc123") VNone (VStr "FINDING_TYPE")
          VNone VNone VNone sc).
Proof.
  intros sc.
  destruct (demo_args known_operation_forwards Decoder.json_loads sc
              Demo.complete_bag Demo.complete_bag false eq_refl)
    as (H1 & H2 & H3 & H4 & H5 & H6).
  split; [reflexivity|].
  split; [exact H1|].
  split; [exact (H2 _ eq_refl)|].
  split; [exact (H3 _ _ eq_refl eq_refl)|].
  split; [exact (H4 _ eq_refl)|].
  split; [exact (H5 _ eq_refl)|].
  exact (H6 _ eq_refl eq_refl).
Defined.

Lemma max_results_default_or_forwarded_witness :
  let asked := [("detector_id", VStr "abc123"); ("max_results", VInt 7)] in
  preprocess Decoder.json_loads asked = Proceed asked false
  /\ In "list_ip_sets" ["list_findings"; "list_ip_sets"; "list_threat_intel_sets"]
  /\ dict_has "detector_id" asked = true
  /\ exists r c,
       Demo.wrapper "list_ip_sets" None asked = Some r /\ calls r = [c] /\
       collaborator_of c = "list_ip_sets" /\ max_results_of c = Some (VInt 7).
Proof.
  intros asked.
  split; [reflexivity|].
  split; [right; left; reflexivity|].
  split; [reflexivity|].
  exact (proj2 (demo_args max_results_default_or_forwarded Decoder.json_loads None
                  asked asked false eq_refl)
           "list_ip_sets" (or_intror (or_introl eq_refl)) eq_refl).
Defined.

Lemma undecodable_payload_reported_witness :
  let params := [("params", VStr "not valid json")] in
  dict_get "params" params = Some (VStr "not valid json")
  /\ Decoder.json_loads "not valid json"
     = JSONDecodeError "Expecting value: line 1 column 1 (char 0)"
  /\ Demo.wrapper "list_ip_sets" None params
     = Some (mk_run [] (Returns (Json.dumps
         (VDict [("error", VDict [
            ("message", VStr "Invalid JSON in params: Expecting value: line 1 column 1 (char 0)");
            ("type", VStr "JSONDecodeError") ])])))).
Proof.
  intros params.
  split; [reflexivity|].
  split; [reflexivity|].
  exact (demo_args undecodable_payload_reported Decoder.json_loads "list_ip_sets" None
           params "not valid json" "Expecting value: line 1 column 1 (char 0)"
           eq_refl eq_refl).
Defined.

(** ** The nested bag *)

Lemma params_mapping_flattened_one_level_witness :
  let criteria := VDict [("severity", VStr "HIGH")] in
  let with_criteria := [("detector_id", VStr "d1"); ("finding_criteria", criteria)] in
  dict_get "params" Demo.d1_nested = Some (VDict Demo.d1_direct)
  /\ (exists p b,
        preprocess Decoder.json_loads Demo.d1_nested = Proceed p b
        /\ (forall k v, dict_get k Demo.d1_direct = Some v -> dict_get k p = Some v)
        /\ Demo.wrapper "list_ip_sets" None Demo.d1_nested
           = Some (except_Exception b "list_ip_sets" p
                     (demo_args try_body b "list_ip_sets" None p)))
  /\ dict_get "params" Demo.d1_direct = None
  /\ Demo.wrapper "list_ip_sets" None Demo.d1_nested
     = Demo.wrapper "list_ip_sets" None Demo.d1_direct
  /\ dict_get "params" with_criteria = None
  /\ dict_get "finding_criteria" with_criteria = Some criteria
  /\ (exists p b,
        preprocess Decoder.json_loads with_criteria = Proceed p b
        /\ dict_get "finding_criteria" p = Some criteria
        /\ (forall k', dict_get k' p = dict_get k' with_criteria)
        /\ Demo.wrapper "list_ip_sets" None with_criteria
           = Some (except_Exception b "list_ip_sets" p
                     (demo_args try_body b "list_ip_sets" None p))).
Proof.
  intros criteria with_criteria.
  destruct (demo_args params_mapping_flattened_one_level Decoder.json_loads
              "list_ip_sets" None) as (Hvisible & Henvelope & Hother).
  split; [reflexivity|].
  split; [exact (Hvisible Demo.d1_nested Demo.d1_direct eq_refl)|].
  split; [reflexivity|].
  split; [exact (Henvelope Demo.d1_direct eq_refl)|].
  split; [reflexivity|].
  split; [reflexivity|].
  exact (Hother with_criteria "finding_criteria" [("severity", VStr "HIGH")]
           eq_refl eq_refl).
Defined.

(** C4 at a bag whose entry [finding_criteria] is a mapping: the entry
    [severity] of that mapping does not become a parameter, and
    [list_findings] is invoked without a severity. *)
Lemma nested_mapping_not_merged :
  let criteria := VDict [("severity", VStr "HIGH")] in
  let params := [("detector_id", VStr "d1"); ("finding_criteria", criteria)] in
  dict_get "finding_criteria" params = Some criteria
  /\ preprocess Decoder.json_loads params = Proceed params false
  /\ dict_get "severity" params = None
  /\ (exists r, Demo.wrapper "list_findings" None params = Some r
                /\ calls r = [call_list_findings (VStr "d1") (VInt 50) VNone VNone VNone
                                None])
  /\ ~ (exists r, Demo.wrapper "list_findings" None params = Some r
                  /\ calls r = [call_list_findings (VStr "d1") (VInt 50) VNone
                                  (VStr "HIGH") VNone None]).
Proof.
  intros criteria params.
  split; [reflexivity|].
  split; [reflexivity|].
  split; [reflexivity|].
  split; [eexists; split; reflexivity|].
  intros (r & Hr & Hc). vm_compute in Hr.
  injection Hr as <-. discriminate Hc.
Qed.

(** Beside a mapping under ["params"] the other entries of the bag are
    lost, where beside a text they are kept: with [max_results = 7] and an
    empty mapping [list_detectors] is asked for 100 detectors, with the
    text of an empty object for 7. *)
Example mapping_payload_drops_other_entries :
  let beside_mapping := [("max_results", VInt 7); ("params", VDict [])] in
  let beside_text := [("max_results", VInt 7); ("params", VStr "{}")] in
  preprocess Decoder.json_loads beside_mapping = Proceed [] false
  /\ (exists r, Demo.wrapper "list_detectors" None beside_mapping = Some r
                /\ calls r = [call_list_detectors (VInt 100) None])
  /\ preprocess Decoder.json_loads beside_text = Proceed [("max_results", VInt 7)] true
  /\ (exists r, Demo.wrapper "list_detectors" None beside_text = Some r
                /\ calls r = [call_list_detectors (VInt 7) None]).
Proof.
  intros beside_mapping beside_text.
  split; [reflexivity|].
  split; [eexists; split; reflexivity|].
  split; [reflexivity|].
  eexists; split; reflexivity.
Qed.

(** The text payload is merged: passing the object as text is passing its
    members, here for [list_ip_sets]. *)
Example text_payload_merged :
  Decoder.json_loads Demo.d1_text = Decoded (VDict Demo.d1_direct)
  /\ preprocess Decoder.json_loads Demo.d1_in_text = Proceed Demo.d1_direct true
  /\ Demo.wrapper "list_ip_sets" None Demo.d1_in_text
     = Demo.wrapper "list_ip_sets" None Demo.d1_direct.
Proof. repeat split; reflexivity. Qed.

(** ** Replies that need the local [json] *)

(** C6 at [operation = "list_findings"] with an empty bag, and at
    [operation = "get_finding_details"] with only [detector_id]: no
    collaborator is invoked, and instead of the error object
    [UnboundLocalError] leaves the function. *)
Theorem missing_parameter_escapes :
  Demo.wrapper "list_findings" None [] = Some (mk_run [] (Raises json_unbound))
  /\ Demo.wrapper "get_finding_details" None Demo.d1_direct
     = Some (mk_run [] (Raises json_unbound)).
Proof. split; reflexivity. Qed.

(** The same two requests with the parameters as a text payload: that
    branch has run [import json], and the error object is returned. *)
Example missing_parameter_reported_after_decoding :
  Demo.wrapper "list_findings" None [("params", VStr "{}")]
  = Some (mk_run [] (Returns (Json.dumps
      (usage_error "detector_id is required for list_findings operation"
                   "operation='list_findings', detector_id='your-detector-id'"))))
  /\ Demo.wrapper "get_finding_details" None Demo.d1_in_text
     = Some (mk_run [] (Returns (Json.dumps
         (usage_error "Missing required parameters: ['finding_id']"
            "operation='get_finding_details', detector_id='detector-id', finding_id='finding-id'")))).
Proof. split; reflexivity. Qed.

(** C2 at a bag with [detector_id] and both, and at one with neither, of
    [finding_statistic_types] and [group_by]: no collaborator is invoked,
    and [UnboundLocalError] leaves the function instead of the conflict
    error and of the required-parameter error. *)
Theorem statistics_validation_escapes :
  Demo.wrapper "get_findings_statistics" None Demo.both_statistics
  = Some (mk_run [] (Raises json_unbound))
  /\ Demo.wrapper "get_findings_statistics" None Demo.d1_direct
     = Some (mk_run [] (Raises json_unbound)).
Proof. split; reflexivity. Qed.

(** C3 at [operation = "bogus"] with an empty bag: [UnboundLocalError]
    leaves the function. The error object, were it returned, holds usage
    examples for four of the six operations. *)
Theorem unknown_operation_escapes :
  known_operation "bogus" = false
  /\ Demo.wrapper "bogus" None [] = Some (mk_run [] (Raises json_unbound))
  /\ keys usage_examples
     = ["list_detectors"; "list_findings"; "get_finding_details"; "get_findings_statistics"].
Proof. repeat split; reflexivity. Qed.

Example unknown_operation_reported_after_decoding :
  Demo.wrapper "bogus" None [("params", VStr "{}")]
  = Some (mk_run [] (Returns (Json.dumps (unknown_operation_error "bogus"))))
  /\ field "available_operations" (unknown_operation_error "bogus")
     = Some (VList (map VStr available_operations)).
Proof. split; reflexivity. Qed.

(** C5 at [operation = "list_detectors"] with an empty bag and a
    collaborator that raises [ClientError]: the handler catches it and
    raises [UnboundLocalError] itself, which leaves the function. A second
    way out: a text payload that decodes to a number makes [params.update]
    raise [TypeError] before the [try] statement is entered. *)
Theorem collaborator_fault_escapes :
  exn_is_Exception Demo.access_denied = true
  /\ Demo.wrapper_failing Demo.access_denied "list_detectors" None []
     = Some (mk_run [call_list_detectors (VInt 100) None] (Raises json_unbound))
  /\ Demo.wrapper "list_detectors" None [("params", VStr "5")]
     = Some (mk_run [] (Raises (TypeError "'int' object is not iterable"))).
Proof. repeat split; reflexivity. Qed.

(** After a text payload the same fault is reported, with its message, the
    name of its class, the operation and the normalized parameters. *)
Example collaborator_fault_reported_after_decoding :
  Demo.wrapper_failing Demo.access_denied "list_detectors" None Demo.d1_in_text
  = Some (mk_run [call_list_detectors (VInt 100) None]
      (Returns (Json.dumps (VDict [("error", VDict [
         ("message", VStr ("Error executing GuardDuty operation 'list_detectors': "
                           ++ exn_str Demo.access_denied));
         ("type", VStr "ClientError");
         ("operation", VStr "list_detectors");
         ("parameters", VDict Demo.d1_direct) ])])))).
Proof. reflexivity. Qed.

(** A cancellation is no [Exception]: it passes the handler. *)
Example cancellation_passes :
  Demo.wrapper_failing Demo.cancelled "list_detectors" None Demo.d1_in_text
  = Some (mk_run [call_list_detectors (VInt 100) None] (Raises Demo.cancelled)).
Proof. reflexivity. Qed.

(** ** Runs for the properties of every call *)

Lemma at_most_one_matching_call_witness :
  exists r,
    Demo.wrapper "list_ip_sets" (Some "123456789012_aws_dev") Demo.d1_direct = Some r
    /\ (calls r = []
        \/ exists c, calls r = [c] /\ collaborator_of c = "list_ip_sets"
                     /\ session_context_of c = Some "123456789012_aws_dev"
                     /\ known_operation "list_ip_sets" = true).
Proof.
  eexists. split; [reflexivity|].
  exact (demo_args at_most_one_matching_call Decoder.json_loads "list_ip_sets"
           (Some "123456789012_aws_dev") Demo.d1_direct _ eq_refl).
Defined.

Lemma collaborator_text_returned_unaltered_witness :
  let c := call_list_ip_sets (VStr "d1") (VInt 50) None in
  let text := Json.dumps (VDict [
    ("called", VStr "list_ip_sets");
    ("arguments", VDict [("detector_id", VStr "d1"); ("max_results", VInt 50)]);
    ("session_context", VNone) ]) in
  exists r,
    Demo.wrapper "list_ip_sets" None Demo.d1_direct = Some r
    /\ calls r = [c]
    /\ demo_args invoke c = Returns text
    /\ result r = Returns text.
Proof.
  intros c text. eexists.
  split; [reflexivity|]. split; [reflexivity|]. split; [reflexivity|].
  exact (demo_args collaborator_text_returned_unaltered Decoder.json_loads
           "list_ip_sets" None Demo.d1_direct _ c text eq_refl eq_refl eq_refl).
Defined.

Lemma no_error_object_without_text_payload_witness :
  (forall payload, dict_get "params" (@nil (string * value)) <> Some (VStr payload))
  /\ exists r,
       Demo.wrapper "list_findings" None [] = Some r /\
       ((calls r = [] /\ result r = Raises json_unbound)
        \/ exists c, calls r = [c] /\
             ((exists text, demo_args invoke c = Returns text /\ result r = Returns text)
              \/ (exists e, demo_args invoke c = Raises e /\
                    result r = Raises (if exn_is_Exception e then json_unbound else e)))).
Proof.
  split; [intros payload H; discriminate H|].
  exact (demo_args no_error_object_without_text_payload Decoder.json_loads
           "list_findings" None [] (fun payload H => eq_ind None
              (fun o => match o with None => True | Some _ => False end) I _ H)).
Defined.

Lemma text_payload_call_returns_text_witness :
  dict_get "params" Demo.d1_in_text = Some (VStr Demo.d1_text)
  /\ Decoder.json_loads Demo.d1_text = Decoded (VDict Demo.d1_direct)
  /\ exists r,
       Demo.wrapper "get_finding_details" None Demo.d1_in_text = Some r /\
       ((exists text, result r = Returns text)
        \/ exists c e, calls r = [c] /\ demo_args invoke c = Raises e /\
             exn_is_Exception e = false /\ result r = Raises e).
Proof.
  split; [reflexivity|]. split; [reflexivity|].
  exact (demo_args text_payload_call_returns_text Decoder.json_loads
           "get_finding_details" None Demo.d1_in_text Demo.d1_direct Demo.d1_text
           eq_refl eq_refl).
Defined.

Lemma fault_reported_after_text_payload_witness :
  let c := call_list_detectors (VInt 100) None in
  exists r,
    Demo.wrapper_failing Demo.access_denied "list_detectors" None Demo.d1_in_text = Some r
    /\ calls r = [c]
    /\ exn_is_Exception Demo.access_denied = true
    /\ result r
       = Returns (Json.dumps (VDict [("error", VDict [
           ("message", VStr ("Error executing GuardDuty operation 'list_detectors': "
                             ++ exn_str Demo.access_denied));
           ("type", VStr "ClientError");
           ("operation", VStr "list_detectors");
           ("parameters", VDict Demo.d1_direct) ])])).
Proof.
  intros c. eexists.
  split; [reflexivity|]. split; [reflexivity|]. split; [reflexivity|].
  exact (fault_reported_after_text_payload (fun _ _ => Raises Demo.access_denied)
           Demo._list_findings Demo._get_finding_details Demo._get_findings_statistics
           Demo._list_ip_sets Demo._list_threat_intel_sets Decoder.json_loads
           "list_detectors" None Demo.d1_in_text Demo.d1_direct Demo.d1_text _ c
           Demo.access_denied eq_refl eq_refl eq_refl eq_refl eq_refl eq_refl).
Defined.

(** ** Runs for the text payload *)

Lemma text_payload_merges_witness :
  let params := [("max_results", VInt 7); ("params", VStr Demo.d1_text)] in
  dict_get "params" params = Some (VStr Demo.d1_text)
  /\ Decoder.json_loads Demo.d1_text = Decoded (VDict Demo.d1_direct)
  /\ NoDup (keys Demo.d1_direct)
  /\ preprocess Decoder.json_loads params
     = Proceed [("max_results", VInt 7); ("detector_id", VStr "d1")] true
  /\ forall k, k <> "params" ->
       dict_get k [("max_results", VInt 7); ("detector_id", VStr "d1")]
       = match dict_get k Demo.d1_direct with
         | Some v => Some v
         | None => dict_get k params
         end.
Proof.
  intros params.
  assert (Hnd : NoDup (keys Demo.d1_direct)).
  { repeat constructor. intros []. }
  split; [reflexivity|]. split; [reflexivity|]. split; [exact Hnd|].
  exact (text_payload_merges Decoder.json_loads params Demo.d1_direct Demo.d1_text
           eq_refl eq_refl Hnd).
Defined.

Lemma text_envelope_equivalent_witness :
  Decoder.json_loads Demo.d1_text = Decoded (VDict Demo.d1_direct)
  /\ NoDup (keys Demo.d1_direct)
  /\ dict_get "params" Demo.d1_direct = None
  /\ preprocess Decoder.json_loads Demo.d1_in_text = Proceed Demo.d1_direct true
  /\ exists r r',
       Demo.wrapper "list_ip_sets" None Demo.d1_in_text = Some r
       /\ Demo.wrapper "list_ip_sets" None Demo.d1_direct = Some r'
       /\ calls r = calls r'
       /\ forall t, result r' = Returns t -> result r = Returns t.
Proof.
  assert (Hnd : NoDup (keys Demo.d1_direct)).
  { repeat constructor. intros []. }
  split; [reflexivity|]. split; [exact Hnd|]. split; [reflexivity|].
  exact (demo_args text_envelope_equivalent Decoder.json_loads "list_ip_sets" None
           Demo.d1_direct Demo.d1_text eq_refl Hnd eq_refl).
Defined.

Lemma non_mapping_payload_witness :
  let params := [("params", VStr "5")] in
  dict_get "params" params = Some (VStr "5")
  /\ Decoder.json_loads "5" = Decoded (VInt 5)
  /\ Demo.wrapper "list_detectors" None params
     = Some (mk_run [] (Raises (TypeError "'int' object is not iterable")))
  /\ Decoder.json_loads "[]" = Decoded (VList [])
  /\ preprocess Decoder.json_loads [("max_results", VInt 7); ("params", VStr "[]")]
     = Proceed [("max_results", VInt 7)] true.
Proof.
  intros params.
  split; [reflexivity|]. split; [reflexivity|].
  split.
  - exact (proj1 (demo_args non_mapping_payload Decoder.json_loads "list_detectors" None
                    params "5" (VInt 5) eq_refl eq_refl)
             (or_intror (or_intror (or_introl (ex_intro _ 5%Z eq_refl))))).
  - split; [reflexivity|].
    exact (proj2 (demo_args non_mapping_payload Decoder.json_loads "list_detectors" None
                    [("max_results", VInt 7); ("params", VStr "[]")] "[]" (VList [])
                    eq_refl eq_refl)
             (or_introl eq_refl)).
Defined.

(** ** Runs for the dispatcher and the catalog *)

Lemma catalog_required_enforced_witness :
  preprocess Decoder.json_loads Demo.d1_direct = Proceed Demo.d1_direct false
  /\ In "finding_id" (required_parameters "get_finding_details")
  /\ dict_get "finding_id" Demo.d1_direct = None
  /\ exists r, Demo.wrapper "get_finding_details" None Demo.d1_direct = Some r
               /\ calls r = [].
Proof.
  assert (Hin : In "finding_id" (required_parameters "get_finding_details")).
  { right. left. reflexivity. }
  split; [reflexivity|]. split; [exact Hin|]. split; [reflexivity|].
  exact (demo_args catalog_required_enforced Decoder.json_loads "get_finding_details"
           "finding_id" None Demo.d1_direct Demo.d1_direct false eq_refl Hin eq_refl).
Defined.

Lemma catalog_defaults_forwarded_witness :
  let c := call_list_findings (VStr "d1") (VInt 50) VNone VNone VNone None in
  preprocess Decoder.json_loads Demo.d1_direct = Proceed Demo.d1_direct false
  /\ documented_default "list_findings" "max_results" = Some (VInt 50)
  /\ dict_get "max_results" Demo.d1_direct = None
  /\ exists r, Demo.wrapper "list_findings" None Demo.d1_direct = Some r
               /\ calls r = [c]
               /\ max_results_of c = Some (VInt 50).
Proof.
  intros c.
  split; [reflexivity|]. split; [reflexivity|]. split; [reflexivity|].
  eexists. split; [reflexivity|]. split; [reflexivity|].
  exact (demo_args catalog_defaults_forwarded Decoder.json_loads "list_findings" None
           Demo.d1_direct Demo.d1_direct false (VInt 50) _ c
           eq_refl eq_refl eq_refl eq_refl eq_refl).
Defined.

Lemma body_reads_documented_parameters_witness :
  let p' := [("detector_id", VStr "d1"); ("severity", VStr "HIGH")] in
  (forall k, In k (keys (documented_parameters "list_ip_sets")) ->
             dict_get k Demo.d1_direct = dict_get k p')
  /\ demo_args try_body false "list_ip_sets" None Demo.d1_direct
     = demo_args try_body false "list_ip_sets" None p'.
Proof.
  intros p'.
  assert (H : forall k, In k (keys (documented_parameters "list_ip_sets")) ->
                        dict_get k Demo.d1_direct = dict_get k p').
  { intros k Hin. vm_compute in Hin.
    destruct Hin as [<- | [<- | [<- | []]]]; reflexivity. }
  split; [exact H|].
  exact (demo_args body_reads_documented_parameters "list_ip_sets" None false
           Demo.d1_direct p' H).
Defined.

Lemma invoked_iff_requirements_witness :
  preprocess Decoder.json_loads Demo.d1_direct = Proceed Demo.d1_direct false
  /\ invokes (Demo.wrapper "list_detectors" None Demo.d1_direct)
  /\ invokes (Demo.wrapper "list_ip_sets" None Demo.d1_direct)
  /\ ~ invokes (Demo.wrapper "get_finding_details" None Demo.d1_direct)
  /\ ~ invokes (Demo.wrapper "get_findings_statistics" None Demo.d1_direct)
  /\ ~ invokes (Demo.wrapper "bogus" None Demo.d1_direct).
Proof.
  destruct (demo_args invoked_iff_requirements Decoder.json_loads None
              Demo.d1_direct Demo.d1_direct false eq_refl)
    as (Hdet & Hthree & Hdetails & Hstats & Hother).
  split; [reflexivity|]. split; [exact Hdet|].
  split; [exact (proj2 (Hthree "list_ip_sets" (or_intror (or_introl eq_refl))) eq_refl)|].
  split; [intros H; apply Hdetails in H; discriminate H|].
  split; [intros H; apply Hstats in H; discriminate H|].
  exact (Hother "bogus" eq_refl).
Defined.
